(** * scheduler-scraper: the crawl-and-aggregate pipeline of [src/scraper.ts]

    A shallow embedding of the four extractors ([getDepartments],
    [getCourseCodes], [getSections], [getOffered]) and of the orchestrator
    ([main]), followed by the properties the specification states about them.

    Modelling conventions.
    - A JavaScript string is a [string]: a sequence of code units, here one
      byte each.
    - The document that [cheerio.load] builds from a response body is a forest
      of [node]s; [cheerio.load] accepts every string, so a fetch either
      yields a document or rejects.
    - The web is a snapshot [web : string -> option document]: [None] is a
      request that rejects.
    - An [async] function is a computation that returns a [result] and
      appends to a log of request [event]s, in the order in which that one
      call issues and settles its requests. *)

From Stdlib Require Import String Ascii ZArith Lia Bool Sorted.
From stdpp Require Import base list strings.

Local Open Scope string_scope.
Local Open Scope Z_scope.
Local Open Scope list_scope.

#[local] Arguments String.append : simpl nomatch.

(** * The program *)

(** ** JavaScript strings *)

Module Js.

Definition length (s : string) : Z := Z.of_nat (String.length s).

(** A string is falsy exactly when it is empty. *)
Definition truthy (s : string) : bool :=
  match s with EmptyString => false | String _ _ => true end.

(** [s.slice(start, end)]: a negative index counts from the end, and both
    indices are clamped to [0 .. length]. *)
Definition clamp (len i : Z) : Z :=
  if i <? 0 then Z.max (len + i) 0 else Z.min i len.

Definition slice (s : string) (start stop : Z) : string :=
  let len := length s in
  let from := clamp len start in
  let to := clamp len stop in
  substring (Z.to_nat from) (Z.to_nat (Z.max (to - from) 0)) s.

(** [s.indexOf(c)] for a one-character search string: [-1] when absent. *)
Fixpoint indexOf_from (c : ascii) (s : string) (i : Z) : Z :=
  match s with
  | EmptyString => -1
  | String a s' => if Ascii.eqb a c then i else indexOf_from c s' (i + 1)
  end.

Definition indexOf (c : ascii) (s : string) : Z := indexOf_from c s 0.

(** [s.charAt(i)]: the empty string when [i] is out of range. *)
Definition charAt (i : nat) (s : string) : string :=
  match String.get i s with
  | Some c => String c EmptyString
  | None => EmptyString
  end.

(** [s.split(c)] for a one-character separator. *)
Fixpoint split (c : ascii) (s : string) : list string :=
  match s with
  | EmptyString => [EmptyString]
  | String a s' =>
      if Ascii.eqb a c then EmptyString :: split c s'
      else match split c s' with
           | seg :: rest => String a seg :: rest
           | [] => [String a EmptyString]
           end
  end.

(** Character classes, on the code unit. *)
Definition code (c : ascii) : N := N_of_ascii c.

Definition between (lo hi : N) (c : ascii) : bool :=
  (N.leb lo (code c) && N.leb (code c) hi)%bool.

Definition is_digit : ascii -> bool := between 48 57.          (* \d *)
Definition is_octal : ascii -> bool := between 48 55.          (* [0-7] *)
Definition is_upper : ascii -> bool := between 65 90.          (* [A-Z] *)
Definition is_lower : ascii -> bool := between 97 122.
Definition is_word (c : ascii) : bool :=                       (* \w *)
  (is_upper c || is_lower c || is_digit c || N.eqb (code c) 95)%bool.
Definition is_line_terminator (c : ascii) : bool :=
  (N.eqb (code c) 10 || N.eqb (code c) 13)%bool.
Definition is_space (c : ascii) : bool :=                      (* \s *)
  (between 9 13 c || N.eqb (code c) 32 || N.eqb (code c) 160)%bool.
Definition is_any (c : ascii) : bool :=                        (* . *)
  negb (is_line_terminator c).

(** [s.trim()] *)
Fixpoint trimStart (s : string) : string :=
  match s with
  | EmptyString => EmptyString
  | String a s' => if is_space a then trimStart s' else s
  end.

Fixpoint trimEnd (s : string) : string :=
  match s with
  | EmptyString => EmptyString
  | String a s' =>
      match trimEnd s' with
      | EmptyString => if is_space a then EmptyString else String a EmptyString
      | t => String a t
      end
  end.

Definition trim (s : string) : string := trimEnd (trimStart s).

Fixpoint concat (l : list string) : string :=
  match l with
  | [] => EmptyString
  | s :: l' => s +:+ concat l'
  end.

End Js.

(** ** Regular expressions

    The four patterns of the source are sequences of literals and of starred
    or plussed character classes, one of them with a capturing group.  The
    matcher is the backtracking one of the language: a quantifier takes as
    much as it can and gives back one character at a time. *)

Module Re.

Inductive atom : Type :=
  | Lit (c : ascii)
  | Star (cls : ascii -> bool)
  | Plus (cls : ascii -> bool).

(** [greedy cls k s]: the longest run of [cls] at the head of [s] after which
    the continuation [k] succeeds; the run is put in front of the first piece
    of the continuation's answer. *)
Fixpoint greedy (cls : ascii -> bool) (k : string -> option (list string))
    (s : string) : option (list string) :=
  let stop := cons EmptyString <$> k s in
  match s with
  | EmptyString => stop
  | String c s' =>
      if cls c then
        match greedy cls k s' with
        | Some (m :: ms) => Some (String c m :: ms)
        | _ => stop
        end
      else stop
  end.

(** [match_here p s]: the text each atom of [p] takes when [p] matches at the
    head of [s]. *)
Fixpoint match_here (p : list atom) (s : string) : option (list string) :=
  match p with
  | [] => Some []
  | Lit c :: p' =>
      match s with
      | String a s' =>
          if Ascii.eqb a c then cons (String a EmptyString) <$> match_here p' s'
          else None
      | EmptyString => None
      end
  | Star cls :: p' => greedy cls (match_here p') s
  | Plus cls :: p' =>
      match s with
      | String a s' =>
          if cls a then
            match greedy cls (match_here p') s' with
            | Some (m :: ms) => Some (String a m :: ms)
            | _ => None
            end
          else None
      | EmptyString => None
      end
  end.

(** The leftmost position at which [p] matches. *)
Fixpoint search (p : list atom) (s : string) : option (list string) :=
  match match_here p s with
  | Some m => Some m
  | None =>
      match s with
      | EmptyString => None
      | String _ s' => search p s'
      end
  end.

(** A pattern: anchored at the start ([^]) or not, and its atoms, each
    flagged when it is a capturing group. *)
Record regex : Type := Regex { anchored : bool; body : list (bool * atom) }.

Definition pieces (r : regex) (s : string) : option (list string) :=
  if anchored r then match_here (body r).*2 s else search (body r).*2 s.

Fixpoint captures (flags : list bool) (ms : list string) : list string :=
  match flags, ms with
  | true :: fs, m :: ms' => m :: captures fs ms'
  | false :: fs, _ :: ms' => captures fs ms'
  | _, _ => []
  end.

(** [s.match(r)] without the [g] flag: the whole match, then the groups. *)
Definition exec (r : regex) (s : string) : option (list string) :=
  (fun ms => Js.concat ms :: captures (body r).*1 ms) <$> pieces r s.

(** [r.test(s)], for a pattern whose [lastIndex] is 0: the pattern literals of
    the source are evaluated anew at each use. *)
Definition test (r : regex) (s : string) : bool :=
  match pieces r s with Some _ => true | None => false end.

Definition plain (a : atom) : bool * atom := (false, a).
Definition group (a : atom) : bool * atom := (true, a).

Fixpoint lits (s : string) : list (bool * atom) :=
  match s with
  | EmptyString => []
  | String c s' => plain (Lit c) :: lits s'
  end.

End Re.

(** ** Documents *)

Module Dom.

#[warnings="-register-all"]
Inductive node : Type :=
  | Text (data : string)
  | Elem (tag : string) (attrs : list (string * string)) (children : list node).

Definition document : Type := list node.

(** [$(element).attr(name)]: [None] is [undefined]. *)
Fixpoint lookup_attr (name : string) (attrs : list (string * string)) : option string :=
  match attrs with
  | [] => None
  | (k, v) :: rest => if String.eqb k name then Some v else lookup_attr name rest
  end.

Definition attr (name : string) (n : node) : option string :=
  match n with
  | Text _ => None
  | Elem _ attrs _ => lookup_attr name attrs
  end.

(** The text of a node: its text descendants, concatenated. *)
Fixpoint node_text (n : node) : string :=
  match n with
  | Text data => data
  | Elem _ _ children => Js.concat (List.map node_text children)
  end.

(** [$(selection).text()]: the combined text of every matched element. *)
Definition text (selection : list node) : string :=
  Js.concat (List.map node_text selection).

(** [$(tag)]: every element of that name, in document order. *)
Fixpoint select_in (name : string) (n : node) : list node :=
  match n with
  | Text _ => []
  | Elem tag _ children =>
      (if String.eqb tag name then [n] else [])
        ++ List.flat_map (select_in name) children
  end.

Definition select (name : string) (doc : document) : list node :=
  List.flat_map (select_in name) doc.

(** [$('#' + id).find(tag)]: the [tag] descendants of the elements whose [id]
    attribute is [id], each once, in document order. *)
Fixpoint find_in (id name : string) (n : node) : list node :=
  match n with
  | Text _ => []
  | Elem _ attrs children =>
      match lookup_attr "id" attrs with
      | Some i =>
          if String.eqb i id then List.flat_map (select_in name) children
          else List.flat_map (find_in id name) children
      | None => List.flat_map (find_in id name) children
      end
  end.

Definition find_by_id (id name : string) (doc : document) : list node :=
  List.flat_map (find_in id name) doc.

End Dom.

Import Dom.

(** ** Results, requests and async functions *)

Inductive result (A : Type) : Type :=
  | Ok (a : A)
  | Err (msg : string).
Arguments Ok {A} a.
Arguments Err {A} msg.

Inductive event : Type :=
  | Issued (url : string)
  | Settled (url : string).

Definition async (A : Type) : Type := list event -> result A * list event.

Definition ret {A} (a : A) : async A := fun log => (Ok a, log).

Definition throw {A} (msg : string) : async A := fun log => (Err msg, log).

(** [await]: run [m]; its rejection propagates. *)
Definition bind {A B} (m : async A) (k : A -> async B) : async B :=
  fun log =>
    match m log with
    | (Ok a, log') => k a log'
    | (Err msg, log') => (Err msg, log')
    end.

(** [try { m } catch (error) { throw new Error(msg) }] *)
Definition rethrow {A} (msg : string) (m : async A) : async A :=
  fun log =>
    match m log with
    | (Ok a, log') => (Ok a, log')
    | (Err _, log') => (Err msg, log')
    end.

Notation "'let*' x ':=' m 'in' k" := (bind m (fun x => k))
  (at level 10, x name, m at level 100, k at level 200).

(** What a call returns, and the requests it made, from an empty log. *)
Definition value {A} (m : async A) : result A := (m []).1.
Definition trace {A} (m : async A) : list event := (m []).2.

Definition Web : Type := string -> option document.

(** [await request(url)] followed by [cheerio.load]: the request is issued,
    the caller is suspended until it settles. *)
Definition request (web : Web) (url : string) : async document :=
  fun log =>
    (match web url with
     | Some doc => Ok doc
     | None => Err "FetchError"
     end, log ++ [Issued url; Settled url]).

(** ** Data model *)

Record Section_ : Type := mkSection {
  crn : string;
  sectionType : string;
  sectionNumber : string
}.

Record Course : Type := mkCourse {
  code : string;
  sections : list Section_;
  subject : string;
  title : string;
  term : string
}.

Definition BASE_URL : string := "https://web.uvic.ca/calendar2020-01/CDs/".
Definition SECTIONS_URL : string := "https://www.uvic.ca/BAN1P/bwckctlg.p_disp_listcrse".

(** ** The patterns of the source *)

(** [/^[A-Z]+/] *)
Definition department_re : Re.regex :=
  Re.Regex true [Re.plain (Re.Plus Js.is_upper)].

(** [/^[0-7]+/] *)
Definition course_re : Re.regex :=
  Re.Regex true [Re.plain (Re.Plus Js.is_octal)].

(** [/[\w\s]*-[\d\s]*-.*-.*/] *)
Definition section_re : Re.regex :=
  Re.Regex false
    [Re.plain (Re.Star (fun c => Js.is_word c || Js.is_space c));
     Re.plain (Re.Lit "-");
     Re.plain (Re.Star (fun c => Js.is_digit c || Js.is_space c));
     Re.plain (Re.Lit "-");
     Re.plain (Re.Star Js.is_any);
     Re.plain (Re.Lit "-");
     Re.plain (Re.Star Js.is_any)].

(** [/term_in=(\d+)/] *)
Definition term_re : Re.regex :=
  Re.Regex false (Re.lits "term_in=" ++ [Re.group (Re.Plus Js.is_digit)]).

(** ** The extractors *)

(** [$('a').each((index, element) => { ... push ... })] with a body that
    pushes what [body element] lists. *)
Definition each {A B} (elements : list A) (body : A -> list B) : list B :=
  fold_left (fun acc element => acc ++ body element) elements [].

Definition department_of (element : node) : list string :=
  match attr "href" element with
  | Some department =>
      if Js.truthy department && Re.test department_re department
      then [Js.slice department 0 (-1)]
      else []
  | None => []
  end.

Definition getDepartments (web : Web) : async (list string) :=
  rethrow "Failed to get department data"
    (let* doc := request web BASE_URL in
     ret (each (select "a" doc) department_of)).

Definition course_of (element : node) : list string :=
  match attr "href" element with
  | Some course =>
      if Js.truthy course && Re.test course_re course
      then [Js.slice course 0 (Js.indexOf "." course)]
      else []
  | None => []
  end.

Definition getCourseCodes (web : Web) (department : string) : async (list string) :=
  rethrow "Failed to get course data"
    (let* doc := request web (BASE_URL +:+ department) in
     ret (each (select "a" doc) course_of)).

(** The body of the loop of [getSections]: reading an element of [linkArray]
    that does not exist gives [undefined], and calling a method on it throws. *)
Definition section_of (element : node) : result (list Section_) :=
  let linkText := text [element] in
  if Js.truthy linkText && Re.test section_re linkText then
    let linkArray := Js.split "-" linkText in
    match linkArray !! 1%nat, linkArray !! 3%nat with
    | Some a1, Some a3 =>
        Ok [mkSection (Js.trim a1) (Js.charAt 1 a3) (Js.slice a3 2 4)]
    | _, _ => Err "TypeError"
    end
  else Ok [].

Fixpoint each_section (elements : list node) (sections : list Section_)
    : result (list Section_) :=
  match elements with
  | [] => Ok sections
  | element :: rest =>
      match section_of element with
      | Ok pushed => each_section rest (sections ++ pushed)
      | Err msg => Err msg
      end
  end.

Definition lift {A} (r : result A) : async A := fun log => (r, log).

Definition getSections (web : Web) (params : string) : async (list Section_) :=
  rethrow "Failed to get sections"
    (let* doc := request web (SECTIONS_URL +:+ params) in
     lift (each_section (select "a" doc) [])).

Definition schedule_of (element : node) : list string :=
  match attr "href" element with
  | Some temp =>
      if Js.truthy temp then [Js.slice temp (Js.indexOf "?" temp) (Js.length temp)]
      else []
  | None => []
  end.

(** [(schedule.match(/term_in=(\d+)/) || [])[1]], then [term || '0']. *)
Definition term_of (schedule : string) : string :=
  let term :=
    match Re.exec term_re schedule with
    | Some groups => groups !! 1%nat
    | None => None
    end in
  match term with
  | Some t => if Js.truthy t then t else "0"
  | None => "0"
  end.

(** The [for (const schedule of schedules)] loop of [getOffered]: each
    [getSections] call is awaited before the next schedule is looked at. *)
Fixpoint offered_loop (web : Web) (subject code title : string)
    (schedules : list string) (courses : list Course) : async (list Course) :=
  match schedules with
  | [] => ret courses
  | schedule :: rest =>
      let* sections := getSections web schedule in
      let term := term_of schedule in
      offered_loop web subject code title rest
        (match sections with
         | [] => courses
         | _ :: _ => courses ++ [mkCourse code sections subject title term]
         end)
  end.

Definition getOffered (web : Web) (subject code : string) : async (list Course) :=
  rethrow "Failed to get avaliable sections"
    (let* doc := request web (BASE_URL +:+ subject +:+ "/" +:+ code +:+ ".html") in
     let title := text (select "h2" doc) in
     let schedules := each (find_by_id "schedules" "a" doc) schedule_of in
     offered_loop web subject code title schedules []).

(** ** The orchestrator *)

(** [Promise.all(tasks)].  The promises settle in some order: those named in
    [order] first, in that order, and the others after them.  A fulfilment is
    stored at the index of its promise; the first rejection rejects the whole;
    when every promise is fulfilled the stored values are the answer. *)
Fixpoint settle {A} (tasks : list (result A)) (order : list nat)
    (values : list (option A)) : result (list (option A)) :=
  match order with
  | [] => Ok values
  | i :: rest =>
      match tasks !! i with
      | Some (Ok a) => settle tasks rest (<[i := Some a]> values)
      | Some (Err msg) => Err msg
      | None => settle tasks rest values
      end
  end.

Definition promise_all {A} (order : list nat) (tasks : list (result A))
    : result (list A) :=
  let n := List.length tasks in
  match settle tasks (order ++ seq 0 n) (replicate n None) with
  | Ok values => Ok (omap id values)
  | Err msg => Err msg
  end.

(** The crawl state: [results] and [failed]. *)
Definition Crawl : Type := list Course * list string.

(** The body of the [try] of one iteration of the loop of [main]. *)
Definition department_courses (web : Web) (order : string -> list nat)
    (department : string) : result (list Course) :=
  match value (getCourseCodes web department) with
  | Ok courseCodes =>
      match promise_all (order department)
              (List.map (fun code => value (getOffered web department code))
                 courseCodes) with
      | Ok courses => Ok (List.concat courses)
      | Err msg => Err msg
      end
  | Err msg => Err msg
  end.

(** One iteration: [results.push(...courses.flat())], or
    [failed.push(department)] in the [catch]. *)
Definition visit (web : Web) (order : string -> list nat)
    (state : Crawl) (department : string) : Crawl :=
  match department_courses web order department with
  | Ok courses => (state.1 ++ courses, state.2)
  | Err _ => (state.1, state.2 ++ [department])
  end.

Definition crawl (web : Web) (order : string -> list nat)
    (departments : list string) (state : Crawl) : Crawl :=
  fold_left (visit web order) departments state.

(** [main]: [Ok (results, failed)] is a run that reaches the end, where
    [results] is written out and [failed] is reported; [Err] is a run whose
    promise rejects, before anything is written or reported. *)
Definition main (web : Web) (order : string -> list nat) : result Crawl :=
  match value (getDepartments web) with
  | Ok departments => Ok (crawl web order departments ([], []))
  | Err msg => Err msg
  end.

(** * Vocabulary of the properties

    What the statements below are written with: string predicates, the
    closed forms that the extractors and the orchestrator are compared with,
    and the sample webs of the witnesses and counterexamples. *)

(** ** Predicates on strings *)

Module Str.

(** The string without its last character. *)
Fixpoint drop_last (s : string) : string :=
  match s with
  | EmptyString => EmptyString
  | String a s' =>
      match s' with
      | EmptyString => EmptyString
      | String _ _ => String a (drop_last s')
      end
  end.

(** The part of the string before the first [c]; all of it when there is
    none. *)
Fixpoint before (c : ascii) (s : string) : string :=
  match s with
  | EmptyString => EmptyString
  | String a s' => if Ascii.eqb a c then EmptyString else String a (before c s')
  end.

Fixpoint contains (c : ascii) (s : string) : bool :=
  match s with
  | EmptyString => false
  | String a s' => Ascii.eqb a c || contains c s'
  end.

Fixpoint count (c : ascii) (s : string) : nat :=
  match s with
  | EmptyString => 0
  | String a s' => (if Ascii.eqb a c then 1 else 0) + count c s'
  end.

Fixpoint all (cls : ascii -> bool) (s : string) : bool :=
  match s with
  | EmptyString => true
  | String a s' => cls a && all cls s'
  end.

Definition first_is (cls : ascii -> bool) (s : string) : bool :=
  match s with
  | EmptyString => false
  | String a _ => cls a
  end.

Fixpoint last_is (cls : ascii -> bool) (s : string) : bool :=
  match s with
  | EmptyString => false
  | String a s' =>
      match s' with
      | EmptyString => cls a
      | String _ _ => last_is cls s'
      end
  end.

End Str.

(** ** Closed forms *)

(** What an atom may take. *)
Definition takes (a : Re.atom) (m : string) : Prop :=
  match a with
  | Re.Lit c => m = String c ""
  | Re.Star cls => Str.all cls m = true
  | Re.Plus cls => m <> "" /\ Str.all cls m = true
  end.

(** The hyperlink targets of a page, in document order. *)
Definition targets (doc : document) : list string :=
  omap (attr "href") (select "a" doc).

Definition codes_of (doc : document) : list string :=
  each (select "a" doc) course_of.

Definition schedules_of (doc : document) : list string :=
  each (find_by_id "schedules" "a" doc) schedule_of.

Definition title_of (doc : document) : string := text (select "h2" doc).

Definition records (element : node) : list Section_ :=
  match section_of element with
  | Ok pushed => pushed
  | Err _ => []
  end.

Definition sections_in (doc : document) : list Section_ :=
  List.flat_map records (select "a" doc).

Definition fetched (web : Web) (url : string) : bool :=
  match web url with Some _ => true | None => false end.

Definition request_log (url : string) : list event := [Issued url; Settled url].

(** A retained course target: up to its first [.], or without its last
    character when it has none. *)
Definition course_code (t : string) : string :=
  if Str.contains "." t then Str.before "." t else Str.drop_last t.

(** The atoms of [term_re]. *)
Definition term_atoms : list Re.atom :=
  [Re.Lit "t"; Re.Lit "e"; Re.Lit "r"; Re.Lit "m"; Re.Lit "_"; Re.Lit "i";
   Re.Lit "n"; Re.Lit "="; Re.Plus Js.is_digit].

(** The records one schedule adds. *)
Definition schedule_records (web : Web) (subject code title schedule : string) : list Course :=
  match web (SECTIONS_URL +:+ schedule) with
  | Some doc =>
      match sections_in doc with
      | [] => []
      | _ :: _ => [mkCourse code (sections_in doc) subject title (term_of schedule)]
      end
  | None => []
  end.

(** The schedules whose sections are requested: up to the first request that
    rejects. *)
Fixpoint attempted (web : Web) (schedules : list string) : list string :=
  match schedules with
  | [] => []
  | schedule :: rest =>
      schedule :: (if fetched web (SECTIONS_URL +:+ schedule) then attempted web rest else [])
  end.

Definition sections_log (web : Web) (schedules : list string) : list event :=
  List.flat_map (fun schedule => request_log (SECTIONS_URL +:+ schedule))
    (attempted web schedules).

Definition all_fetched (web : Web) (schedules : list string) : bool :=
  forallb (fun schedule => fetched web (SECTIONS_URL +:+ schedule)) schedules.

Definition course_url (subject code : string) : string :=
  BASE_URL +:+ subject +:+ "/" +:+ code +:+ ".html".

Definition course_ok (web : Web) (subject code : string) : bool :=
  match web (course_url subject code) with
  | Some doc => all_fetched web (schedules_of doc)
  | None => false
  end.

(** The records of one course, in the order of its schedules. *)
Definition course_block (web : Web) (subject code : string) : list Course :=
  match web (course_url subject code) with
  | Some doc =>
      List.flat_map (schedule_records web subject code (title_of doc)) (schedules_of doc)
  | None => []
  end.

(** A department succeeds when its listing and every page below it are
    fetched. *)
Definition department_ok (web : Web) (department : string) : bool :=
  match web (BASE_URL +:+ department) with
  | Some doc => forallb (course_ok web department) (codes_of doc)
  | None => false
  end.

(** The records of one department, in the order of its course codes. *)
Definition department_block (web : Web) (department : string) : list Course :=
  match web (BASE_URL +:+ department) with
  | Some doc => List.flat_map (course_block web department) (codes_of doc)
  | None => []
  end.

Definition succeeded (web : Web) (departments : list string) : list string :=
  List.filter (department_ok web) departments.

Definition failing (web : Web) (departments : list string) : list string :=
  List.filter (fun department => negb (department_ok web department)) departments.

(** ** The words of the specification *)

(** The text of the first [h2] heading of a page. *)
Definition first_heading (doc : document) : string :=
  match select "h2" doc with
  | heading :: _ => node_text heading
  | [] => ""
  end.

(** The target with a trailing path separator stripped, in the words of the
    specification. *)
Definition strip_separator (t : string) : string :=
  if Str.last_is (Ascii.eqb "/") t then Str.drop_last t else t.

Definition listed_departments (doc : document) : list string :=
  List.map strip_separator
    (List.filter (Str.first_is Js.is_upper) (targets doc)).

(** The substring before the first [.], in the words of the specification. *)
Definition listed_codes (doc : document) : list string :=
  List.map (Str.before ".")
    (List.filter (Str.first_is Js.is_octal) (targets doc)).

(** The shape the specification gives to a Section record. *)
Definition well_formed (sec : Section_) : bool :=
  Js.truthy (crn sec) && Str.all Js.is_digit (crn sec)
  && Nat.eqb (String.length (sectionType sec)) 1
  && Nat.eqb (String.length (sectionNumber sec)) 2
  && Str.all Js.is_digit (sectionNumber sec).

(** [term_in=] followed by a digit, at position [i] of [s]. *)
Definition param_at (i : nat) (s : string) : Prop :=
  exists d, substring i 9 s = "term_in=" +:+ String d "" /\ Js.is_digit d = true.

(** A step of the processing of [department] fails: the fetch of its
    listing, or of one of its course pages, or of the sections page of one of
    their schedules. *)
Definition fails_within (web : Web) (department : string) : Prop :=
  web (BASE_URL +:+ department) = None
  \/ exists listing code,
       web (BASE_URL +:+ department) = Some listing
       /\ In code (codes_of listing)
       /\ (web (course_url department code) = None
           \/ exists page schedule,
                web (course_url department code) = Some page
                /\ In schedule (schedules_of page)
                /\ web (SECTIONS_URL +:+ schedule) = None).

Definition other_course (department : string) (c : Course) : bool :=
  negb (String.eqb (subject c) department).

Definition other_department (department d : string) : bool :=
  negb (String.eqb d department).

Fixpoint remove_first (url : string) (pending : list string) : list string :=
  match pending with
  | [] => []
  | u :: rest => if String.eqb u url then rest else u :: remove_first url rest
  end.

Definition step (pending : list string) (e : event) : list string :=
  match e with
  | Issued url => pending ++ [url]
  | Settled url => remove_first url pending
  end.

(** The requests that are issued and not yet settled at the end of a log. *)
Definition outstanding (log : list event) : list string := fold_left step log [].

(** The lookups of [urls] are all outstanding at some moment of the log. *)
Definition together (log : list event) (urls : list string) : bool :=
  existsb
    (fun k =>
       forallb (fun url => existsb (String.eqb url) (outstanding (take k log))) urls)
    (seq 0 (S (length log))).

(** ** Sample webs *)

Definition link (href text : string) : node := Elem "a" [("href", href)] [Text text].

(** The web that serves the listed pages and rejects every other request. *)
Definition serve (pages : list (string * document)) : Web :=
  fun url => snd <$> List.find (fun page => String.eqb (fst page) url) pages.

(** The catalog of the end-to-end scenario of the specification: [CSC] has
    the course [225] with one schedule of two sections, and the listing of
    [MATH] cannot be fetched. *)
Definition catalog : Web :=
  serve
    [(BASE_URL,
      [Elem "html" []
         [link "?C=N;O=D" "Name"; link "/calendar2020-01/" "Parent Directory";
          link "CSC/" "CSC/"; link "MATH/" "MATH/"]]);
     (BASE_URL +:+ "CSC",
      [link "225.html" "225.html"; link "CTs.html" "CTs.html"]);
     (BASE_URL +:+ "CSC/225.html",
      [Elem "h2" [] [Text " CSC 225 - Algorithms and Data Structures I "];
       Elem "ul" [("id", "schedules")]
         [Elem "li" []
            [link "https://www.uvic.ca/BAN1P/bwckctlg.p_disp_listcrse?term_in=202009&subj_in=CSC&crse_in=225&schd_in="
               "September 2020"]];
       link "../index.html" "Back"]);
     (SECTIONS_URL +:+ "?term_in=202009&subj_in=CSC&crse_in=225&schd_in=",
      [link "s1" "Algorithms and Data Structures I - 10752 - CSC 225 - A01";
       link "s2" "Algorithms and Data Structures I - 10753 - CSC 225 - B01";
       link "help" "Help"])].

Definition in_order : string -> list nat := fun _ => [].

Definition reversed : string -> list nat := fun _ => [1; 0]%nat.

(** The catalog of the scenario once the listing of [MATH] can be fetched:
    an empty page. *)
Definition catalog_with_math : Web :=
  fun url => if String.eqb url (BASE_URL +:+ "MATH") then Some [] else catalog url.

(** A catalog page with an upper-case target that is no directory. *)
Definition catalog_with_file : Web :=
  serve [(BASE_URL, [link "CSC/" "CSC/"; link "README" "README"])].

(** A department page with a course target that has no extension. *)
Definition listing_without_extension : Web :=
  serve [(BASE_URL +:+ "CSC", [link "110.html" "110"; link "225" "225"])].

(** A course page with a second heading. *)
Definition two_headings : Web :=
  serve
    [(BASE_URL +:+ "CSC/225.html",
      [Elem "h2" [] [Text "CSC 225"];
       Elem "h2" [] [Text "Schedules"];
       Elem "ul" [("id", "schedules")] [link "x?term_in=202009" "September 2020"]]);
     (SECTIONS_URL +:+ "?term_in=202009",
      [link "s1" "Algorithms and Data Structures I - 10752 - CSC 225 - A01"])].

(** A course page with two schedules. *)
Definition two_schedules : Web :=
  serve
    [(BASE_URL +:+ "CSC/225.html",
      [Elem "h2" [] [Text "CSC 225"];
       Elem "ul" [("id", "schedules")]
         [link "x?term_in=202009" "September 2020"; link "x?term_in=202101" "January 2021"]]);
     (SECTIONS_URL +:+ "?term_in=202009",
      [link "s1" "Algorithms and Data Structures I - 10752 - CSC 225 - A01"]);
     (SECTIONS_URL +:+ "?term_in=202101",
      [link "s1" "Algorithms and Data Structures I - 20752 - CSC 225 - A01"])].

(** Two schedules, the first with a sections page that has no section. *)
Definition empty_schedule : Web :=
  serve
    [(SECTIONS_URL +:+ "?term_in=202005", [link "help" "Help"]);
     (SECTIONS_URL +:+ "?term_in=202009",
      [link "s1" "Algorithms and Data Structures I - 10752 - CSC 225 - A01"])].

(** A course page whose only schedule has no [term_in] parameter. *)
Definition without_term : Web :=
  serve
    [(BASE_URL +:+ "CSC/225.html",
      [Elem "h2" [] [Text "CSC 225"];
       Elem "ul" [("id", "schedules")] [link "x?subj_in=CSC" "Schedule"]]);
     (SECTIONS_URL +:+ "?subj_in=CSC",
      [link "s1" "Algorithms and Data Structures I - 10752 - CSC 225 - A01"])].

(** A sections page on which a title has a hyphen of its own. *)
Definition hyphenated_title : Web :=
  serve
    [(SECTIONS_URL +:+ "?term_in=202009",
      [link "s1" "Self-Directed Study - 12345 - CSC 490 - A01"; link "s2" "---"])].

(** ** Further vocabulary *)

(** The string from its first [c] on; empty when there is none. *)
Fixpoint from_first (c : ascii) (s : string) : string :=
  match s with
  | EmptyString => EmptyString
  | String a s' => if Ascii.eqb a c then s else from_first c s'
  end.

(** The last character of the string, as a string. *)
Fixpoint last_char (s : string) : string :=
  match s with
  | EmptyString => EmptyString
  | String a s' =>
      match s' with
      | EmptyString => String a EmptyString
      | String _ _ => last_char s'
      end
  end.

(** The addressing key kept from a schedule target. *)
Definition query_part (t : string) : string :=
  if Str.contains "?" t then from_first "?" t else last_char t.

(** The hyperlink targets inside the [schedules] region of a page. *)
Definition region_targets (doc : document) : list string :=
  omap (attr "href") (find_by_id "schedules" "a" doc).

(** The atoms of [section_re]. *)
Definition section_atoms : list Re.atom :=
  [Re.Star (fun c => Js.is_word c || Js.is_space c); Re.Lit "-";
   Re.Star (fun c => Js.is_digit c || Js.is_space c); Re.Lit "-";
   Re.Star Js.is_any; Re.Lit "-"; Re.Star Js.is_any].

(** ** Places, pages and parameters *)

(** The pages of a small campus: the departments [CSC] and [MATH]; [CSC]
    lists the courses [110] and [225], and [225] has two schedules; [MATH]
    lists the course [100]. *)
Definition campus_pages : list (string * document) :=
  [(BASE_URL,
    [link "?C=N;O=D" "Name"; link "CSC/" "CSC/"; link "MATH/" "MATH/"]);
   (BASE_URL +:+ "CSC", [link "110.html" "110.html"; link "225.html" "225.html"]);
   (BASE_URL +:+ "MATH", [link "100.html" "100.html"]);
   (BASE_URL +:+ "CSC/110.html",
    [Elem "h2" [] [Text "CSC 110"];
     Elem "ul" [("id", "schedules")]
       [link "x?term_in=202009&subj_in=CSC&crse_in=110" "September 2020"]]);
   (BASE_URL +:+ "CSC/225.html",
    [Elem "h2" [] [Text "CSC 225"];
     Elem "ul" [("id", "schedules")]
       [link "x?term_in=202009&subj_in=CSC&crse_in=225" "September 2020";
        link "x?term_in=202101&subj_in=CSC&crse_in=225" "January 2021"]]);
   (BASE_URL +:+ "MATH/100.html",
    [Elem "h2" [] [Text "MATH 100"];
     Elem "ul" [("id", "schedules")]
       [link "x?term_in=202009&subj_in=MATH&crse_in=100" "September 2020"]]);
   (SECTIONS_URL +:+ "?term_in=202009&subj_in=CSC&crse_in=110",
    [link "s1" "Fundamentals of Programming I - 10700 - CSC 110 - A01"]);
   (SECTIONS_URL +:+ "?term_in=202009&subj_in=CSC&crse_in=225",
    [link "s1" "Algorithms and Data Structures I - 10752 - CSC 225 - A01";
     link "s2" "Algorithms and Data Structures I - 10753 - CSC 225 - B01"]);
   (SECTIONS_URL +:+ "?term_in=202101&subj_in=CSC&crse_in=225",
    [link "s1" "Algorithms and Data Structures I - 20752 - CSC 225 - A01"])].

(** The sections page of the one schedule of [MATH 100]. *)
Definition math_sections : string * document :=
  (SECTIONS_URL +:+ "?term_in=202009&subj_in=MATH&crse_in=100",
   [link "s1" "Calculus I - 12100 - MATH 100 - A01"]).

Definition campus : Web := serve (campus_pages ++ [math_sections]).

(** The campus when the sections page of [MATH 100] cannot be fetched. *)
Definition campus_without_math_sections : Web := serve campus_pages.

Definition csc110 : Course :=
  mkCourse "110" [mkSection "10700" "A" "01"] "CSC" "CSC 110" "202009".
Definition csc225_september : Course :=
  mkCourse "225" [mkSection "10752" "A" "01"; mkSection "10753" "B" "01"]
    "CSC" "CSC 225" "202009".
Definition csc225_january : Course :=
  mkCourse "225" [mkSection "20752" "A" "01"] "CSC" "CSC 225" "202101".
Definition math100 : Course :=
  mkCourse "100" [mkSection "12100" "A" "01"] "MATH" "MATH 100" "202009".

(** The two webs serve the same pages to the processing of [department]:
    its listing, the pages of the courses of the listing, and the sections
    pages of the schedules of these. *)
Definition same_pages (web web' : Web) (department : string) : Prop :=
  web' (BASE_URL +:+ department) = web (BASE_URL +:+ department)
  /\ forall listing code,
       web (BASE_URL +:+ department) = Some listing ->
       In code (codes_of listing) ->
       web' (course_url department code) = web (course_url department code)
       /\ forall page schedule,
            web (course_url department code) = Some page ->
            In schedule (schedules_of page) ->
            web' (SECTIONS_URL +:+ schedule) = web (SECTIONS_URL +:+ schedule).

(** The parameters of a query string, in the words of the specification:
    the pieces between [&] after the leading [?], each a name and, after its
    first [=], a value. *)
Definition parameters (query : string) : list (string * string) :=
  List.map
    (fun piece =>
       (Str.before "=" piece,
        match from_first "=" piece with
        | String _ value => value
        | EmptyString => EmptyString
        end))
    (Js.split "&"
       match query with
       | String "?" rest => rest
       | _ => query
       end).

(** The value of the first parameter of that name. *)
Definition parameter (name query : string) : option string :=
  snd <$> List.find (fun p => String.eqb (fst p) name) (parameters query).

(** A course page whose schedules carry a parameter whose name ends with
    [term_in]. *)
Definition other_parameter : Web :=
  serve
    [(BASE_URL +:+ "CSC/225.html",
      [Elem "h2" [] [Text "CSC 225"];
       Elem "ul" [("id", "schedules")]
         [link "x?start_term_in=201909&term_in=202009" "September 2020";
          link "x?start_term_in=201909" "Any term"]]);
     (SECTIONS_URL +:+ "?start_term_in=201909&term_in=202009",
      [link "s1" "Algorithms and Data Structures I - 10752 - CSC 225 - A01"]);
     (SECTIONS_URL +:+ "?start_term_in=201909",
      [link "s1" "Algorithms and Data Structures I - 10753 - CSC 225 - A02"])].

(** The elements of [l] that are kept, each turned by [f] and paired with its
    position in [l], counted from [n]. *)
Fixpoint picked_from {A B} (keep : A -> bool) (f : A -> B) (n : nat) (l : list A)
    : list (nat * B) :=
  match l with
  | [] => []
  | x :: l' =>
      (if keep x then [(n, f x)] else []) ++ picked_from keep f (S n) l'
  end.

Definition picked {A B} (keep : A -> bool) (f : A -> B) (l : list A) : list (nat * B) :=
  picked_from keep f 0 l.

(** The departments of the catalog page, the course codes of a listing and
    the schedule keys of a course page, each with the position of its
    hyperlink among the hyperlink targets of the page, in document order. *)
Definition departments_at (page : document) : list (nat * string) :=
  picked (Str.first_is Js.is_upper) Str.drop_last (targets page).

Definition codes_at (listing : document) : list (nat * string) :=
  picked (Str.first_is Js.is_octal) course_code (targets listing).

Definition schedules_at (page : document) : list (nat * string) :=
  picked Js.truthy query_part (region_targets page).

(** The place of a discovery: the position of the department on the catalog
    page, of the course on the listing, of the schedule on the course page. *)
Definition place : Type := nat * nat * nat.

(** Earlier in the order of discovery: by department, then by course, then
    by schedule. *)
Definition earlier (a b : place) : Prop :=
  (a.1.1 < b.1.1)%nat
  \/ (a.1.1 = b.1.1
      /\ ((a.1.2 < b.1.2)%nat \/ (a.1.2 = b.1.2 /\ (a.2 < b.2)%nat))).

Definition course_discoveries (web : Web) (i : nat) (department : string)
    (at_code : nat * string) : list (place * Course) :=
  match web (course_url department at_code.2) with
  | Some page =>
      List.flat_map
        (fun at_schedule =>
           List.map (pair (i, at_code.1, at_schedule.1))
             (schedule_records web department at_code.2 (title_of page) at_schedule.2))
        (schedules_at page)
  | None => []
  end.

(** What is discovered below one department; nothing when one of its
    fetches fails. *)
Definition department_discoveries (web : Web) (at_department : nat * string)
    : list (place * Course) :=
  if department_ok web at_department.2 then
    match web (BASE_URL +:+ at_department.2) with
    | Some listing =>
        List.flat_map (course_discoveries web at_department.1 at_department.2)
          (codes_at listing)
    | None => []
    end
  else [].

(** The records discovered from a catalog page, each with its place. *)
Definition discovered (web : Web) (page : document) : list (place * Course) :=
  List.flat_map (department_discoveries web) (departments_at page).

Definition campus_order (department : string) : list nat :=
  if String.eqb department "CSC" then [1; 0]%nat else [0]%nat.

(** * Properties *)

(** ** Strings *)

Module StrFacts.
Import Str.

Lemma app_empty_r (s : string) : s +:+ "" = s.
Proof. induction s as [|a s IH]; simpl; [reflexivity | now rewrite IH]. Qed.

Lemma app_assoc (s t u : string) : (s +:+ t) +:+ u = s +:+ (t +:+ u).
Proof. induction s as [|a s IH]; simpl; [reflexivity | now rewrite IH]. Qed.

Lemma length_app (s t : string) :
  String.length (s +:+ t) = (String.length s + String.length t)%nat.
Proof. induction s as [|a s IH]; simpl; [reflexivity | now rewrite IH]. Qed.

Lemma count_app c (s t : string) : count c (s +:+ t) = (count c s + count c t)%nat.
Proof. induction s as [|a s IH]; simpl; [reflexivity | rewrite IH; lia]. Qed.

Lemma substring_0_length (s : string) : substring 0 (String.length s) s = s.
Proof. induction s as [|a s IH]; simpl; [reflexivity | now rewrite IH]. Qed.

Lemma substring_0_app (s t : string) :
  substring 0 (String.length s) (s +:+ t) = s.
Proof.
  induction s as [|a s IH]; simpl.
  - destruct t; reflexivity.
  - now rewrite IH.
Qed.

Lemma substring_length_le (n m : nat) (s : string) :
  (String.length (substring n m s) <= m)%nat.
Proof.
  revert n m. induction s as [|a s IH]; intros n m.
  - destruct n, m; simpl; lia.
  - destruct n as [|n].
    + destruct m as [|m]; simpl; [lia |]. specialize (IH 0%nat m). lia.
    + simpl. apply IH.
Qed.

Lemma substring_length_exact (n m : nat) (s : string) :
  (n + m <= String.length s)%nat -> String.length (substring n m s) = m.
Proof.
  revert n m. induction s as [|a s IH]; intros n m H; simpl in H.
  - destruct n, m; simpl; lia.
  - destruct n as [|n].
    + destruct m as [|m]; simpl; [reflexivity |]. rewrite (IH 0%nat m); lia.
    + simpl. apply IH. lia.
Qed.

Lemma substring_pred_length (s : string) :
  substring 0 (Nat.pred (String.length s)) s = drop_last s.
Proof.
  induction s as [|a s IH]; [reflexivity |].
  destruct s as [|b s]; [reflexivity |].
  change (Nat.pred (String.length (String a (String b s))))
    with (S (Nat.pred (String.length (String b s)))).
  change (substring 0 (S ?n) (String a ?t)) with (String a (substring 0 n t)).
  rewrite IH. reflexivity.
Qed.

(** [s.slice(0, -1)] drops the last character. *)
Lemma slice_0_m1 (s : string) : Js.slice s 0 (-1) = drop_last s.
Proof.
  unfold Js.slice, Js.clamp, Js.length. cbn [Z.ltb Z.compare].
  rewrite <- substring_pred_length. f_equal; lia.
Qed.

Lemma drop_last_snoc (s : string) (c : ascii) :
  drop_last (s +:+ String c "") = s.
Proof.
  induction s as [|a s IH]; [reflexivity |].
  cbn [String.app] in *. cbn [drop_last]. rewrite IH.
  destruct s; reflexivity.
Qed.

Lemma indexOf_from_absent c s i : contains c s = false -> Js.indexOf_from c s i = -1.
Proof.
  revert i. induction s as [|a s IH]; intros i H; simpl in *; [reflexivity |].
  destruct (Ascii.eqb a c); [discriminate | now apply IH].
Qed.

Lemma indexOf_from_present c s i :
  contains c s = true ->
  Js.indexOf_from c s i = i + Z.of_nat (String.length (before c s)).
Proof.
  revert i. induction s as [|a s IH]; intros i H; simpl in *; [discriminate |].
  destruct (Ascii.eqb a c); simpl; [lia |].
  rewrite IH by assumption. lia.
Qed.

Lemma before_prefix c s : exists rest, s = before c s +:+ rest.
Proof.
  induction s as [|a s [rest IH]]; simpl.
  - now exists "".
  - destruct (Ascii.eqb a c); simpl.
    + now eexists.
    + exists rest. now rewrite <- IH.
Qed.

(** [s.slice(0, s.indexOf(c))] when [c] occurs in [s]. *)
Lemma slice_before c s :
  contains c s = true -> Js.slice s 0 (Js.indexOf c s) = before c s.
Proof.
  intros H. unfold Js.indexOf. rewrite indexOf_from_present by assumption.
  destruct (before_prefix c s) as [rest Hrest].
  unfold Js.slice, Js.clamp, Js.length.
  assert (Hlen : (String.length (before c s) <= String.length s)%nat).
  { rewrite Hrest at 2. rewrite length_app. lia. }
  destruct (Z.ltb_spec0 (0 + Z.of_nat (String.length (before c s))) 0); [lia |].
  cbn [Z.ltb Z.compare].
  replace (Z.to_nat (Z.min 0 (Z.of_nat (String.length s)))) with 0%nat by lia.
  replace (Z.to_nat _) with (String.length (before c s)) by lia.
  rewrite Hrest at 2. apply substring_0_app.
Qed.

(** ... and when it does not. *)
Lemma slice_no_separator c s :
  contains c s = false -> Js.slice s 0 (Js.indexOf c s) = drop_last s.
Proof.
  intros H. unfold Js.indexOf. rewrite indexOf_from_absent by assumption.
  apply slice_0_m1.
Qed.

Lemma length_split c s : List.length (Js.split c s) = S (count c s).
Proof.
  induction s as [|a s IH]; [reflexivity |].
  simpl. destruct (Ascii.eqb a c); simpl; [now rewrite IH |].
  destruct (Js.split c s); simpl in *; lia.
Qed.

Lemma length_charAt i s : (String.length (Js.charAt i s) <= 1)%nat.
Proof. unfold Js.charAt. destruct (String.get i s); simpl; lia. Qed.

Lemma length_slice_2_4 s : (String.length (Js.slice s 2 4) <= 2)%nat.
Proof.
  unfold Js.slice. etransitivity; [apply substring_length_le |].
  unfold Js.clamp. cbn [Z.ltb Z.compare]. lia.
Qed.

Lemma trimStart_first s : first_is Js.is_space (Js.trimStart s) = false.
Proof.
  induction s as [|a s IH]; [reflexivity |].
  simpl. destruct (Js.is_space a) eqn:E; [assumption | simpl; assumption].
Qed.

Lemma trimEnd_last s : last_is Js.is_space (Js.trimEnd s) = false.
Proof.
  induction s as [|a s IH]; [reflexivity |].
  simpl. destruct (Js.trimEnd s) as [|b t] eqn:E.
  - destruct (Js.is_space a) eqn:Ea; simpl; [reflexivity | assumption].
  - exact IH.
Qed.

Lemma trimEnd_first s :
  first_is Js.is_space s = false -> first_is Js.is_space (Js.trimEnd s) = false.
Proof.
  destruct s as [|a s]; [reflexivity |].
  simpl. intros Ha. destruct (Js.trimEnd s); [rewrite Ha |]; simpl; assumption.
Qed.

(** A trimmed string neither starts nor ends with white space. *)
Lemma trim_trimmed s :
  first_is Js.is_space (Js.trim s) = false /\ last_is Js.is_space (Js.trim s) = false.
Proof.
  unfold Js.trim. split.
  - apply trimEnd_first, trimStart_first.
  - apply trimEnd_last.
Qed.

End StrFacts.

(** ** The matcher *)

Module ReFacts.
Import Str StrFacts.

Lemma greedy_sound cls k s ms :
  Re.greedy cls k s = Some ms ->
  exists m ms' rest,
    ms = m :: ms' /\ all cls m = true /\ s = m +:+ rest /\ k rest = Some ms'.
Proof.
  revert ms. induction s as [|c s IH]; intros ms H; cbn [Re.greedy] in H.
  - destruct (k "") as [ms'|] eqn:E; [|discriminate].
    injection H as <-. exists "", ms', "". auto.
  - assert (Hstop : cons "" <$> k (String c s) = Some ms ->
      exists m ms' rest, ms = m :: ms' /\ all cls m = true
        /\ String c s = m +:+ rest /\ k rest = Some ms').
    { destruct (k (String c s)) as [ms'|] eqn:E; [|discriminate].
      intros [= <-]. exists "", ms', (String c s). auto. }
    destruct (cls c) eqn:Ec; [|auto].
    destruct (Re.greedy cls k s) as [[|m ms']|] eqn:E; [auto | | auto].
    destruct (IH _ eq_refl) as (m0 & ms0 & rest & [= -> ->] & Hall & -> & Hk).
    injection H as <-. exists (String c m0), ms0, rest.
    simpl. rewrite Ec, Hall. auto.
Qed.

Lemma match_here_sound p s ms :
  Re.match_here p s = Some ms ->
  Forall2 takes p ms /\ exists rest, s = Js.concat ms +:+ rest.
Proof.
  revert s ms. induction p as [|a p IH]; intros s ms H.
  - injection H as <-. split; [constructor | now exists s].
  - destruct a as [c|cls|cls]; cbn [Re.match_here] in H.
    + destruct s as [|b s]; [discriminate |].
      destruct (Ascii.eqb_spec b c) as [->|]; [|discriminate].
      destruct (Re.match_here p s) as [ms'|] eqn:E; [|discriminate].
      injection H as <-. destruct (IH _ _ E) as [HF [rest ->]].
      split; [constructor; [reflexivity | assumption] | now exists rest].
    + destruct (greedy_sound _ _ _ _ H) as (m & ms' & rest & -> & Hall & -> & Hk).
      destruct (IH _ _ Hk) as [HF [rest' ->]].
      split; [constructor; assumption |].
      exists rest'. simpl. now rewrite app_assoc.
    + destruct s as [|b s]; [discriminate |].
      destruct (cls b) eqn:Eb; [|discriminate].
      destruct (Re.greedy cls (Re.match_here p) s) as [[|m ms']|] eqn:E;
        try discriminate.
      injection H as <-.
      destruct (greedy_sound _ _ _ _ E) as (m0 & ms0 & rest & [= -> ->] & Hall & -> & Hk).
      destruct (IH _ _ Hk) as [HF [rest' ->]].
      split.
      * constructor; [|assumption]. split; [discriminate |]. simpl.
        now rewrite Eb, Hall.
      * exists rest'. simpl. now rewrite app_assoc.
Qed.

Lemma search_sound p s ms :
  Re.search p s = Some ms ->
  Forall2 takes p ms /\ exists pre rest, s = pre +:+ Js.concat ms +:+ rest.
Proof.
  induction s as [|c s IH]; cbn [Re.search]; intros H.
  - destruct (Re.match_here p "") as [m|] eqn:E; [|discriminate].
    injection H as ->. destruct (match_here_sound _ _ _ E) as [HF [rest Hr]].
    split; [assumption |]. now exists "", rest.
  - destruct (Re.match_here p (String c s)) as [m|] eqn:E.
    + injection H as ->. destruct (match_here_sound _ _ _ E) as [HF [rest Hr]].
      split; [assumption |]. now exists "", rest.
    + destruct (IH H) as [HF (pre & rest & ->)].
      split; [assumption |]. now exists (String c pre), rest.
Qed.

Lemma pieces_sound r s ms :
  Re.pieces r s = Some ms ->
  Forall2 takes (Re.body r).*2 ms /\ exists pre rest, s = pre +:+ Js.concat ms +:+ rest.
Proof.
  unfold Re.pieces. destruct (Re.anchored r); intros H.
  - destruct (match_here_sound _ _ _ H) as [HF [rest Hr]].
    split; [assumption |]. now exists "", rest.
  - now apply search_sound.
Qed.

(** A quantified class at the end of a pattern takes the whole run. *)
Lemma greedy_last cls (run rest : string) :
  all cls run = true -> first_is cls rest = false ->
  Re.greedy cls (Re.match_here []) (run +:+ rest) = Some [run].
Proof.
  intros Hrun Hrest. induction run as [|c run IH]; simpl in *.
  - destruct rest as [|b rest]; [reflexivity |].
    simpl in *. now rewrite Hrest.
  - apply andb_true_iff in Hrun as [Hc Hrun]. now rewrite Hc, IH.
Qed.

Lemma match_here_lit c p s :
  Re.match_here (Re.Lit c :: p) (String c s)
  = cons (String c "") <$> Re.match_here p s.
Proof. cbn [Re.match_here]. now rewrite Ascii.eqb_refl. Qed.

Lemma match_here_plus_last cls (a : ascii) (run rest : string) :
  cls a = true -> all cls run = true -> first_is cls rest = false ->
  Re.match_here [Re.Plus cls] (String a (run +:+ rest)) = Some [String a run].
Proof.
  intros Ha Hrun Hrest.
  change (Re.match_here [Re.Plus cls] (String a (run +:+ rest)))
    with (if cls a
          then match Re.greedy cls (Re.match_here []) (run +:+ rest) with
               | Some (m :: ms) => Some (String a m :: ms)
               | _ => None
               end
          else None).
  now rewrite Ha, (greedy_last _ _ _ Hrun Hrest).
Qed.

(** [/^[cls]+/.test(s)] looks at the first character only. *)
Lemma test_plus_anchored cls s :
  Re.test (Re.Regex true [Re.plain (Re.Plus cls)]) s = first_is cls s.
Proof.
  unfold Re.test, Re.pieces. cbn [Re.anchored Re.body].
  change ([Re.plain (Re.Plus cls)].*2) with [Re.Plus cls].
  destruct s as [|a s]; [reflexivity |].
  change (Re.match_here [Re.Plus cls] (String a s))
    with (if cls a
          then match Re.greedy cls (Re.match_here []) s with
               | Some (m :: ms) => Some (String a m :: ms)
               | _ => None
               end
          else None).
  cbn [first_is].
  destruct (cls a); [|reflexivity].
  assert (H : exists m, Re.greedy cls (Re.match_here []) s = Some [m]).
  { clear. induction s as [|b s [m IH]]; cbn [Re.greedy]; [now eexists |].
    destruct (cls b); [rewrite IH|]; now eexists. }
  destruct H as [m ->]. reflexivity.
Qed.

End ReFacts.

(** ** The extractors, in closed form *)

Lemma each_flat_map {A B} (elements : list A) (body : A -> list B) :
  each elements body = List.flat_map body elements.
Proof.
  unfold each.
  enough (H : forall acc, fold_left (fun acc element => acc ++ body element) elements acc
                          = acc ++ List.flat_map body elements) by apply (H []).
  induction elements as [|x l IH]; intros acc; simpl.
  - now rewrite app_nil_r.
  - rewrite IH. now rewrite <- app_assoc.
Qed.

Lemma truthy_first_is cls s : Js.truthy s && Str.first_is cls s = Str.first_is cls s.
Proof. now destruct s. Qed.

Lemma departments_closed (doc : document) :
  each (select "a" doc) department_of
  = List.map Str.drop_last
      (List.filter (Str.first_is Js.is_upper) (targets doc)).
Proof.
  rewrite each_flat_map. unfold targets.
  induction (select "a" doc) as [|element l IH]; [reflexivity |].
  cbn [List.flat_map omap list_omap]. unfold department_of at 1.
  destruct (attr "href" element) as [t|]; [|exact IH].
  unfold department_re. rewrite ReFacts.test_plus_anchored, truthy_first_is.
  cbn [List.filter]. destruct (Str.first_is Js.is_upper t); [|exact IH].
  cbn [List.map app]. now rewrite IH, StrFacts.slice_0_m1.
Qed.

Lemma codes_closed (doc : document) :
  codes_of doc
  = List.map course_code (List.filter (Str.first_is Js.is_octal) (targets doc)).
Proof.
  unfold codes_of. rewrite each_flat_map. unfold targets.
  induction (select "a" doc) as [|element l IH]; [reflexivity |].
  cbn [List.flat_map omap list_omap]. unfold course_of at 1.
  destruct (attr "href" element) as [t|]; [|exact IH].
  unfold course_re. rewrite ReFacts.test_plus_anchored, truthy_first_is.
  cbn [List.filter]. destruct (Str.first_is Js.is_octal t); [|exact IH].
  cbn [List.map app]. rewrite IH. f_equal. unfold course_code.
  destruct (Str.contains "." t) eqn:E.
  - now apply StrFacts.slice_before.
  - now apply StrFacts.slice_no_separator.
Qed.

(** A link text that the section pattern accepts has four segments. *)
Lemma section_re_segments (linkText : string) :
  Re.test section_re linkText = true ->
  (4 <= List.length (Js.split "-" linkText))%nat.
Proof.
  unfold Re.test. destruct (Re.pieces section_re linkText) as [ms|] eqn:E;
    [intros _ | discriminate].
  destruct (ReFacts.pieces_sound _ _ _ E) as [HF (pre & rest & ->)].
  rewrite StrFacts.length_split, !StrFacts.count_app.
  cbn in HF.
  repeat match goal with
         | H : Forall2 _ (_ :: _) _ |- _ => inversion H; subst; clear H
         | H : Forall2 _ [] _ |- _ => inversion H; subst; clear H
         end.
  cbn [takes] in *. subst.
  cbn [Js.concat]. rewrite !StrFacts.count_app. simpl. lia.
Qed.

Lemma section_of_ok (element : node) : section_of element = Ok (records element).
Proof.
  unfold records. unfold section_of.
  destruct (Js.truthy (text [element]) && Re.test section_re (text [element])) eqn:E;
    [|reflexivity].
  apply andb_true_iff in E as [_ E]. apply section_re_segments in E.
  destruct (Js.split "-" (text [element])) as [|a0 [|a1 [|a2 [|a3 l]]]];
    simpl in E; try lia.
  reflexivity.
Qed.

Lemma each_section_ok (elements : list node) (acc : list Section_) :
  each_section elements acc = Ok (acc ++ List.flat_map records elements).
Proof.
  revert acc. induction elements as [|element l IH]; intros acc; simpl.
  - now rewrite app_nil_r.
  - rewrite section_of_ok, IH. now rewrite <- app_assoc.
Qed.

Section Runs.
Variable web : Web.

Lemma getDepartments_run (log : list event) :
  getDepartments web log
  = (match web BASE_URL with
     | Some doc => Ok (each (select "a" doc) department_of)
     | None => Err "Failed to get department data"
     end, log ++ request_log BASE_URL).
Proof.
  unfold getDepartments, rethrow, bind, request, ret.
  now destruct (web BASE_URL).
Qed.

Lemma getCourseCodes_run (department : string) (log : list event) :
  getCourseCodes web department log
  = (match web (BASE_URL +:+ department) with
     | Some doc => Ok (codes_of doc)
     | None => Err "Failed to get course data"
     end, log ++ request_log (BASE_URL +:+ department)).
Proof.
  unfold getCourseCodes, rethrow, bind, request, ret.
  now destruct (web (BASE_URL +:+ department)).
Qed.

(** [getSections] rejects only when its request does. *)
Lemma getSections_run (params : string) (log : list event) :
  getSections web params log
  = (match web (SECTIONS_URL +:+ params) with
     | Some doc => Ok (sections_in doc)
     | None => Err "Failed to get sections"
     end, log ++ request_log (SECTIONS_URL +:+ params)).
Proof.
  unfold getSections, rethrow, bind, request, lift.
  destruct (web (SECTIONS_URL +:+ params)); [|reflexivity].
  now rewrite each_section_ok.
Qed.

Lemma offered_loop_run subject code title schedules courses log :
  offered_loop web subject code title schedules courses log
  = (if all_fetched web schedules
     then Ok (courses ++ List.flat_map (schedule_records web subject code title) schedules)
     else Err "Failed to get sections",
     log ++ sections_log web schedules).
Proof.
  revert courses log. induction schedules as [|schedule rest IH]; intros courses log.
  - unfold sections_log. simpl. unfold ret. now rewrite !app_nil_r.
  - cbn [offered_loop]. unfold bind. rewrite getSections_run.
    unfold sections_log, all_fetched, schedule_records, fetched in *.
    cbn [attempted forallb List.flat_map].
    unfold fetched.
    destruct (web (SECTIONS_URL +:+ schedule)) as [doc|].
    + rewrite IH. cbn [andb]. rewrite <- !app_assoc. f_equal.
      destruct (forallb _ rest); [|reflexivity].
      destruct (sections_in doc); [reflexivity | now rewrite <- app_assoc].
    + cbn [andb List.flat_map]. now rewrite app_nil_r.
Qed.

Lemma getOffered_run subject code log :
  getOffered web subject code log
  = (if course_ok web subject code then Ok (course_block web subject code)
     else Err "Failed to get avaliable sections",
     log ++ request_log (course_url subject code)
       ++ match web (course_url subject code) with
          | Some doc => sections_log web (schedules_of doc)
          | None => []
          end).
Proof.
  unfold getOffered, rethrow, bind, request, course_ok, course_block.
  fold (course_url subject code).
  destruct (web (course_url subject code)) as [doc|].
  - fold (title_of doc). fold (schedules_of doc).
    rewrite offered_loop_run. rewrite <- app_assoc.
    now destruct (all_fetched web (schedules_of doc)).
  - now rewrite app_nil_r.
Qed.

End Runs.

(** ** Joining promises *)

Section PromiseAll.
Context {A : Type}.
Implicit Types (tasks : list (result A)) (order : list nat)
  (values : list (option A)) (vs : list A).

Lemma settle_err tasks order values msg :
  settle tasks order values = Err msg -> Err msg ∈ tasks.
Proof.
  revert values. induction order as [|i rest IH]; intros values; cbn [settle].
  - discriminate.
  - destruct (tasks !! i) as [[a|e]|] eqn:E; eauto.
    intros [= ->]. eapply list_elem_of_lookup_2, E.
Qed.

Lemma settle_rejects tasks order values i e :
  tasks !! i = Some (Err e) -> i ∈ order ->
  exists msg, settle tasks order values = Err msg.
Proof.
  intros Hi. revert values. induction order as [|j rest IH]; intros values Hin.
  - inversion Hin.
  - cbn [settle]. destruct (decide (j = i)) as [->|Hne].
    + rewrite Hi. eauto.
    + destruct (tasks !! j) as [[a|e']|]; eauto;
        apply IH; apply elem_of_cons in Hin as [?|?]; congruence.
Qed.

Lemma settle_fulfils vs order values :
  length values = length vs ->
  (forall i a, values !! i = Some (Some a) -> vs !! i = Some a) ->
  exists values',
    settle (Ok <$> vs) order values = Ok values'
    /\ length values' = length vs
    /\ (forall i a, values' !! i = Some (Some a) -> vs !! i = Some a)
    /\ (forall i a, vs !! i = Some a ->
          i ∈ order \/ values !! i = Some (Some a) ->
          values' !! i = Some (Some a)).
Proof.
  revert values. induction order as [|j rest IH]; intros values Hlen Hinv.
  - exists values. cbn [settle]. repeat split; auto.
    intros i a _ [Hin|H]; [inversion Hin | exact H].
  - cbn [settle]. rewrite list_lookup_fmap.
    destruct (vs !! j) as [b|] eqn:Ej; cbn [fmap option_fmap option_map].
    + assert (Hj : (j < length values)%nat)
        by (rewrite Hlen; eapply lookup_lt_Some, Ej).
      destruct (IH (<[j := Some b]> values)) as (values' & Hs & Hl & Hi & Hf).
      * now rewrite length_insert.
      * intros i a. destruct (decide (i = j)) as [->|Hne].
        -- rewrite list_lookup_insert_eq by assumption. congruence.
        -- rewrite list_lookup_insert_ne by congruence. apply Hinv.
      * exists values'. repeat split; auto.
        intros i a Hv Hor. apply Hf; [assumption |].
        destruct (decide (i = j)) as [->|Hne].
        -- right. rewrite list_lookup_insert_eq by assumption. congruence.
        -- rewrite list_lookup_insert_ne by congruence.
           destruct Hor as [Hin|H]; [|now right].
           apply elem_of_cons in Hin as [?|?]; [congruence | now left].
    + destruct (IH values Hlen Hinv) as (values' & Hs & Hl & Hi & Hf).
      exists values'. repeat split; auto.
      intros i a Hv Hor. apply Hf; [assumption |].
      destruct Hor as [Hin|H]; [|now right].
      apply elem_of_cons in Hin as [->|?]; [congruence | now left].
Qed.

(** Whatever the order in which they settle, fulfilled promises give their
    values in the order of the promises. *)
Lemma promise_all_fulfilled order vs :
  promise_all order (Ok <$> vs) = Ok vs.
Proof.
  unfold promise_all. rewrite length_fmap.
  destruct (settle_fulfils vs (order ++ seq 0 (length vs))
              (replicate (length vs) None)) as (values' & -> & Hl & _ & Hf).
  - apply length_replicate.
  - intros i a H. apply lookup_replicate in H as [? _]. discriminate.
  - f_equal. assert (Hv : values' = Some <$> vs).
    { apply list_eq. intros i. rewrite list_lookup_fmap.
      destruct (vs !! i) as [a|] eqn:E; cbn.
      - apply Hf; [assumption |]. left. apply elem_of_app. right.
        apply elem_of_seq. apply lookup_lt_Some in E. lia.
      - apply lookup_ge_None. rewrite Hl. now apply lookup_ge_None. }
    rewrite Hv. clear. induction vs as [|a vs IH]; [reflexivity |].
    cbn. now rewrite IH.
Qed.

(** One rejection rejects the whole, with the message of a rejected promise. *)
Lemma promise_all_rejected order tasks e :
  Err e ∈ tasks ->
  exists msg, promise_all order tasks = Err msg /\ Err msg ∈ tasks.
Proof.
  intros Hin. apply list_elem_of_lookup_1 in Hin as [i Hi].
  unfold promise_all.
  destruct (settle_rejects tasks (order ++ seq 0 (length tasks))
              (replicate (length tasks) None) i e Hi) as [msg Hs].
  - apply elem_of_app. right. apply elem_of_seq.
    apply lookup_lt_Some in Hi. lia.
  - rewrite Hs. exists msg. split; [reflexivity |]. eapply settle_err, Hs.
Qed.

End PromiseAll.

(** ** The orchestrator, in closed form *)

Section Orchestrator.
Variable web : Web.

Lemma value_getOffered subject code :
  value (getOffered web subject code)
  = if course_ok web subject code then Ok (course_block web subject code)
    else Err "Failed to get avaliable sections".
Proof. unfold value. now rewrite getOffered_run. Qed.

Lemma department_courses_ok order department :
  department_ok web department = true ->
  department_courses web order department = Ok (department_block web department).
Proof.
  unfold department_ok, department_block, department_courses, value.
  rewrite getCourseCodes_run. cbn [fst].
  destruct (web (BASE_URL +:+ department)) as [doc|]; [|discriminate].
  intros Hall.
  assert (Htasks : List.map (fun code => (getOffered web department code []).1) (codes_of doc)
                   = Ok <$> List.map (course_block web department) (codes_of doc)).
  { induction (codes_of doc) as [|code l IH]; [reflexivity |].
    cbn [forallb] in Hall. apply andb_true_iff in Hall as [Hc Hl].
    cbn [List.map fmap list_fmap]. rewrite <- IH by assumption. f_equal.
    change ((getOffered web department code []).1)
      with (value (getOffered web department code)).
    now rewrite value_getOffered, Hc. }
  rewrite Htasks, promise_all_fulfilled. f_equal.
  now rewrite flat_map_concat_map.
Qed.

Lemma department_courses_fail order department :
  department_ok web department = false ->
  exists msg, department_courses web order department = Err msg.
Proof.
  unfold department_ok, department_courses, value.
  rewrite getCourseCodes_run. cbn [fst].
  destruct (web (BASE_URL +:+ department)) as [doc|]; [|eauto].
  intros Hall.
  assert (Hin : Err "Failed to get avaliable sections"
                ∈ List.map (fun code => (getOffered web department code []).1) (codes_of doc)).
  { induction (codes_of doc) as [|code l IH]; [discriminate |].
    cbn [forallb] in Hall. cbn [List.map].
    change ((getOffered web department code []).1)
      with (value (getOffered web department code)).
    rewrite value_getOffered.
    destruct (course_ok web department code); [|now left].
    right. now apply IH. }
  destruct (promise_all_rejected (order department) _ _ Hin) as (msg & -> & _).
  eauto.
Qed.

Lemma crawl_closed order departments (state : Crawl) :
  crawl web order departments state
  = (state.1 ++ List.flat_map (department_block web) (succeeded web departments),
     state.2 ++ failing web departments).
Proof.
  unfold crawl, succeeded, failing. revert state.
  induction departments as [|d l IH]; intros [results failed]; cbn [fold_left].
  - cbn. now rewrite !app_nil_r.
  - rewrite IH. unfold visit. cbn [List.filter].
    destruct (department_ok web d) eqn:E.
    + rewrite (department_courses_ok order d E). cbn.
      now rewrite <- app_assoc.
    + destruct (department_courses_fail order d E) as [msg ->]. cbn.
      now rewrite <- app_assoc.
Qed.

(** [main] rejects only when the discovery of the departments does. *)
Lemma main_closed order :
  main web order
  = match web BASE_URL with
    | Some doc =>
        let departments := each (select "a" doc) department_of in
        Ok (List.flat_map (department_block web) (succeeded web departments),
            failing web departments)
    | None => Err "Failed to get department data"
    end.
Proof.
  unfold main, value. rewrite getDepartments_run. cbn [fst].
  destruct (web BASE_URL); [|reflexivity].
  now rewrite crawl_closed.
Qed.

End Orchestrator.

(** ** Where a record comes from *)

Lemma in_schedule_records web subject code title schedule c :
  In c (schedule_records web subject code title schedule) ->
  exists doc,
    web (SECTIONS_URL +:+ schedule) = Some doc
    /\ sections_in doc <> []
    /\ c = mkCourse code (sections_in doc) subject title (term_of schedule).
Proof.
  unfold schedule_records.
  destruct (web (SECTIONS_URL +:+ schedule)) as [doc|]; [|intros []].
  destruct (sections_in doc) as [|sec secs] eqn:E; [intros [] |].
  intros [<-|[]]. exists doc. rewrite E. repeat split; discriminate.
Qed.

Lemma in_course_block web subject code c :
  In c (course_block web subject code) ->
  exists page schedule doc,
    web (course_url subject code) = Some page
    /\ In schedule (schedules_of page)
    /\ web (SECTIONS_URL +:+ schedule) = Some doc
    /\ sections_in doc <> []
    /\ c = mkCourse code (sections_in doc) subject (title_of page) (term_of schedule).
Proof.
  unfold course_block.
  destruct (web (course_url subject code)) as [page|]; [|intros []].
  intros H. apply in_flat_map in H as (schedule & Hs & H).
  apply in_schedule_records in H as (doc & Hd & Hne & ->).
  exists page, schedule, doc. auto.
Qed.

Lemma in_department_block web department c :
  In c (department_block web department) ->
  exists code, In c (course_block web department code).
Proof.
  unfold department_block.
  destruct (web (BASE_URL +:+ department)) as [listing|]; [|intros []].
  intros H. apply in_flat_map in H as (code & _ & H). eauto.
Qed.

Lemma department_block_subject web department c :
  In c (department_block web department) -> subject c = department.
Proof.
  intros H. apply in_department_block in H as [code H].
  apply in_course_block in H as (page & schedule & doc & _ & _ & _ & _ & ->).
  reflexivity.
Qed.

Lemma department_block_sections web department c :
  In c (department_block web department) -> sections c <> [].
Proof.
  intros H. apply in_department_block in H as [code H].
  apply in_course_block in H as (page & schedule & doc & _ & _ & _ & Hne & ->).
  exact Hne.
Qed.

Lemma getOffered_ok web subject code courses :
  value (getOffered web subject code) = Ok courses ->
  courses = course_block web subject code.
Proof.
  rewrite value_getOffered.
  destruct (course_ok web subject code); [congruence | discriminate].
Qed.

Lemma main_ok web order results failed :
  main web order = Ok (results, failed) ->
  exists doc,
    web BASE_URL = Some doc
    /\ results = List.flat_map (department_block web)
                   (succeeded web (each (select "a" doc) department_of))
    /\ failed = failing web (each (select "a" doc) department_of).
Proof.
  rewrite main_closed. destruct (web BASE_URL) as [doc|]; [|discriminate].
  cbn. intros [= <- <-]. eauto.
Qed.

(** ** C6: no record without sections *)

(** C6.  Every Course record of the Crawl Result has at least one section;
    and in the loop of [getOffered] a schedule whose sections page yields no
    section adds no record and is no failure: the loop goes on with the
    courses it had. *)
Theorem C6_emitted_courses_have_sections :
  (forall web order results failed c,
      main web order = Ok (results, failed) -> In c results -> sections c <> [])
  /\ (forall web subject code title schedule rest courses log,
         value (getSections web schedule) = Ok [] ->
         offered_loop web subject code title (schedule :: rest) courses log
         = offered_loop web subject code title rest courses
             (log ++ request_log (SECTIONS_URL +:+ schedule))).
Proof.
  split.
  - intros web order results failed c Hmain Hc.
    apply main_ok in Hmain as (doc & _ & -> & _).
    apply in_flat_map in Hc as (d & _ & Hc).
    eapply department_block_sections, Hc.
  - intros web subject code title schedule rest courses log H.
    unfold value in H. rewrite getSections_run in H. cbn [fst] in H.
    cbn [offered_loop]. unfold bind. rewrite getSections_run.
    destruct (web (SECTIONS_URL +:+ schedule)) as [doc|]; [|discriminate].
    injection H as ->. reflexivity.
Qed.

Lemma C6_witness :
  sections
    (mkCourse "225" [mkSection "10752" "A" "01"; mkSection "10753" "B" "01"]
       "CSC" " CSC 225 - Algorithms and Data Structures I " "202009") <> []
  /\ offered_loop empty_schedule "CSC" "225" "CSC 225"
       ["?term_in=202005"; "?term_in=202009"] [] []
     = offered_loop empty_schedule "CSC" "225" "CSC 225" ["?term_in=202009"] []
         ([] ++ request_log (SECTIONS_URL +:+ "?term_in=202005")).
Proof.
  destruct C6_emitted_courses_have_sections as [Hsections Hdropped].
  split.
  - apply (Hsections catalog in_order
             [mkCourse "225" [mkSection "10752" "A" "01"; mkSection "10753" "B" "01"]
                "CSC" " CSC 225 - Algorithms and Data Structures I " "202009"]
             ["MATH"]).
    + vm_compute. reflexivity.
    + left. reflexivity.
  - apply Hdropped. vm_compute. reflexivity.
Defined.

(** ** The end-to-end scenario *)

Example catalog_crawl :
  main catalog in_order
  = Ok ([mkCourse "225" [mkSection "10752" "A" "01"; mkSection "10753" "B" "01"]
           "CSC" " CSC 225 - Algorithms and Data Structures I " "202009"],
        ["MATH"]).
Proof. vm_compute. reflexivity. Qed.

(** The link text that the specification gives as an example. *)
Example section_of_example :
  section_of (link "s" "LEC - 12345 - A - L01 something")
  = Ok [mkSection "12345" "L" "01"].
Proof. vm_compute. reflexivity. Qed.

(** ** C10: a failed discovery of the departments *)

(** C10.  When the discovery of the departments fails, [main] fails with the
    error of that step: the run reaches neither the writing of the result
    nor the report of the failed departments, so no Course record and no
    Failure Set entry is produced. *)
Theorem C10_department_discovery_failure_is_fatal
    (web : Web) (order : string -> list nat) (msg : string) :
  value (getDepartments web) = Err msg ->
  main web order = Err msg
  /\ msg = "Failed to get department data"
  /\ forall results failed, main web order <> Ok (results, failed).
Proof.
  intros H. unfold main. rewrite H. repeat split; [|discriminate].
  unfold value in H. rewrite getDepartments_run in H. cbn [fst] in H.
  destruct (web BASE_URL); congruence.
Qed.

Lemma C10_witness :
  main (serve []) in_order = Err "Failed to get department data"
  /\ "Failed to get department data" = "Failed to get department data"
  /\ forall results failed, main (serve []) in_order <> Ok (results, failed).
Proof.
  apply (C10_department_discovery_failure_is_fatal (serve []) in_order).
  reflexivity.
Defined.

(** The discovery fails exactly when the request for the catalog does. *)
Lemma getDepartments_fails_iff (web : Web) :
  (exists msg, value (getDepartments web) = Err msg) <-> web BASE_URL = None.
Proof.
  unfold value. rewrite getDepartments_run. cbn [fst].
  destruct (web BASE_URL); split; try congruence; eauto.
  intros [msg H]. discriminate.
Qed.

(** ** C8: the title *)

(** C8, as stated, fails: on a page with two [h2] headings the title is the
    text of both, not the text of the first. *)
Lemma C8_counterexample :
  exists page c,
    two_headings (course_url "CSC" "225") = Some page
    /\ value (getOffered two_headings "CSC" "225") = Ok [c]
    /\ first_heading page = "CSC 225"
    /\ title c = "CSC 225Schedules"
    /\ title c <> first_heading page.
Proof.
  eexists _, _. repeat split; try (vm_compute; reflexivity). vm_compute. discriminate.
Qed.

(** C8, amended.  Every Course record aggregated from a course page has as
    title the combined text of all the [h2] headings of the page, in document
    order and verbatim (nothing is trimmed); on a page with exactly one [h2]
    heading that is the text of that heading. *)
Theorem C8_title_is_combined_heading_text
    (web : Web) (subject code : string) (courses : list Course) (c : Course) :
  value (getOffered web subject code) = Ok courses -> In c courses ->
  exists page,
    web (course_url subject code) = Some page
    /\ title c = Js.concat (List.map node_text (select "h2" page))
    /\ (forall heading, select "h2" page = [heading] -> title c = node_text heading).
Proof.
  intros H Hc. apply getOffered_ok in H as ->.
  apply in_course_block in Hc as (page & schedule & doc & Hp & _ & _ & _ & ->).
  exists page. split; [assumption |]. split; [reflexivity |].
  intros heading Hh. cbn [title]. unfold title_of, text. rewrite Hh.
  cbn. apply StrFacts.app_empty_r.
Qed.

Lemma C8_witness :
  exists page,
    catalog (course_url "CSC" "225") = Some page
    /\ title (mkCourse "225" [mkSection "10752" "A" "01"; mkSection "10753" "B" "01"]
                "CSC" " CSC 225 - Algorithms and Data Structures I " "202009")
       = Js.concat (List.map node_text (select "h2" page))
    /\ title (mkCourse "225" [mkSection "10752" "A" "01"; mkSection "10753" "B" "01"]
                "CSC" " CSC 225 - Algorithms and Data Structures I " "202009")
       = node_text (Elem "h2" [] [Text " CSC 225 - Algorithms and Data Structures I "]).
Proof.
  destruct (C8_title_is_combined_heading_text catalog "CSC" "225"
              [mkCourse "225" [mkSection "10752" "A" "01"; mkSection "10753" "B" "01"]
                 "CSC" " CSC 225 - Algorithms and Data Structures I " "202009"]
              (mkCourse "225" [mkSection "10752" "A" "01"; mkSection "10753" "B" "01"]
                 "CSC" " CSC 225 - Algorithms and Data Structures I " "202009"))
    as (page & Hpage & Hall & Hone).
  - vm_compute. reflexivity.
  - left. reflexivity.
  - exists page. split; [exact Hpage |]. split; [exact Hall |].
    apply Hone. vm_compute in Hpage. injection Hpage as <-. reflexivity.
Defined.

(** ** C5: the departments of the catalog page *)

(** C5, as stated, fails: a qualifying target without a trailing separator
    loses its last character. *)
Lemma C5_counterexample :
  exists page,
    catalog_with_file BASE_URL = Some page
    /\ value (getDepartments catalog_with_file) = Ok ["CSC"; "READM"]
    /\ listed_departments page = ["CSC"; "README"]
    /\ value (getDepartments catalog_with_file) <> Ok (listed_departments page).
Proof.
  eexists. repeat split; try (vm_compute; reflexivity). vm_compute. discriminate.
Qed.

(** C5, amended.  For every catalog page the Department Extractor emits, in
    document order, one code for each hyperlink target that begins with an
    upper-case letter, and no other; each code is its target without the
    last character, which for a target that ends with the path separator is
    the target with that separator stripped; a page with no qualifying
    hyperlink gives the empty sequence, and no error. *)
Theorem C5_departments_in_document_order (web : Web) (page : document) :
  web BASE_URL = Some page ->
  value (getDepartments web)
  = Ok (List.map Str.drop_last
          (List.filter (Str.first_is Js.is_upper) (targets page)))
  /\ (forall t, Str.last_is (Ascii.eqb "/") t = true ->
        Str.drop_last t = strip_separator t)
  /\ (forall name, Str.drop_last (name +:+ "/") = name)
  /\ (List.filter (Str.first_is Js.is_upper) (targets page) = [] ->
        value (getDepartments web) = Ok []).
Proof.
  intros H.
  assert (Hv : value (getDepartments web)
               = Ok (List.map Str.drop_last
                       (List.filter (Str.first_is Js.is_upper) (targets page)))).
  { unfold value. rewrite getDepartments_run, H. cbn [fst].
    now rewrite departments_closed. }
  repeat split.
  - exact Hv.
  - intros t Ht. unfold strip_separator. now rewrite Ht.
  - intros name. apply StrFacts.drop_last_snoc.
  - intros Hnone. now rewrite Hv, Hnone.
Qed.

Lemma C5_witness :
  value (getDepartments catalog_with_file)
  = Ok (List.map Str.drop_last
          (List.filter (Str.first_is Js.is_upper)
             (targets [link "CSC/" "CSC/"; link "README" "README"])))
  /\ (forall t, Str.last_is (Ascii.eqb "/") t = true ->
        Str.drop_last t = strip_separator t)
  /\ (forall name, Str.drop_last (name +:+ "/") = name)
  /\ (List.filter (Str.first_is Js.is_upper)
        (targets [link "CSC/" "CSC/"; link "README" "README"]) = [] ->
        value (getDepartments catalog_with_file) = Ok []).
Proof.
  apply (C5_departments_in_document_order catalog_with_file).
  reflexivity.
Defined.

(** ** C4: the course codes of a department page *)

(** C4.  The code at the failing input: the target [225] has no [.], the
    index of the separator is [-1], and the slice drops the last character;
    the substring before the first [.] is the whole target. *)
Theorem C4_target_without_separator_is_cut :
  exists page,
    listing_without_extension (BASE_URL +:+ "CSC") = Some page
    /\ value (getCourseCodes listing_without_extension "CSC") = Ok ["110"; "22"]
    /\ listed_codes page = ["110"; "225"].
Proof. eexists. repeat split; vm_compute; reflexivity. Qed.

(** What [getCourseCodes] retains, on every page: the targets that begin
    with a digit from 0 to 7, in document order, each cut before its first
    [.] when it has one. *)
Lemma getCourseCodes_retains (web : Web) (department : string) (page : document) :
  web (BASE_URL +:+ department) = Some page ->
  value (getCourseCodes web department)
  = Ok (List.map course_code
          (List.filter (Str.first_is Js.is_octal) (targets page)))
  /\ (forall t, Str.contains "." t = true -> course_code t = Str.before "." t).
Proof.
  intros H. split.
  - unfold value. rewrite getCourseCodes_run, H. cbn [fst]. now rewrite codes_closed.
  - intros t Ht. unfold course_code. now rewrite Ht.
Qed.

(** ** C7: the fields of a section *)

(** C7, as stated, fails: the pattern accepts both link texts, and the fields
    are cut from the second and fourth segments of the text whatever they
    hold. *)
Lemma C7_counterexample :
  Re.test section_re "Self-Directed Study - 12345 - CSC 490 - A01" = true
  /\ value (getSections hyphenated_title "?term_in=202009")
     = Ok [mkSection "Directed Study" "C" "SC"; mkSection "" "" ""]
  /\ well_formed (mkSection "Directed Study" "C" "SC") = false
  /\ well_formed (mkSection "" "" "") = false.
Proof. repeat split; vm_compute; reflexivity. Qed.

(** C7, amended.  Every Section record that the Section Extractor emits comes
    from a link whose text the pattern accepts; that text has at least four
    dash-separated segments; [crn] is the second segment trimmed, so it
    neither starts nor ends with white space; [sectionType] is the second
    character of the fourth segment, at most one character; [sectionNumber]
    is its third and fourth characters, at most two characters; when the
    fourth segment has four characters or more they are exactly one and
    two. *)
Theorem C7_section_fields
    (web : Web) (params : string) (secs : list Section_) (sec : Section_) :
  value (getSections web params) = Ok secs -> In sec secs ->
  exists page element second fourth,
    web (SECTIONS_URL +:+ params) = Some page
    /\ In element (select "a" page)
    /\ Re.test section_re (text [element]) = true
    /\ Js.split "-" (text [element]) !! 1%nat = Some second
    /\ Js.split "-" (text [element]) !! 3%nat = Some fourth
    /\ crn sec = Js.trim second
    /\ sectionType sec = Js.charAt 1 fourth
    /\ sectionNumber sec = Js.slice fourth 2 4
    /\ Str.first_is Js.is_space (crn sec) = false
    /\ Str.last_is Js.is_space (crn sec) = false
    /\ (String.length (sectionType sec) <= 1)%nat
    /\ (String.length (sectionNumber sec) <= 2)%nat
    /\ ((4 <= String.length fourth)%nat ->
        String.length (sectionType sec) = 1%nat
        /\ String.length (sectionNumber sec) = 2%nat).
Proof.
  intros H Hsec. unfold value in H. rewrite getSections_run in H. cbn [fst] in H.
  destruct (web (SECTIONS_URL +:+ params)) as [page|]; [|discriminate].
  injection H as <-. unfold sections_in in Hsec.
  apply in_flat_map in Hsec as (element & Hel & Hsec).
  unfold records, section_of in Hsec.
  destruct (Js.truthy (text [element]) && Re.test section_re (text [element])) eqn:E;
    [|destruct Hsec].
  apply andb_true_iff in E as [_ E].
  pose proof (section_re_segments _ E) as Hlen.
  destruct (Js.split "-" (text [element])) as [|a0 [|a1 [|a2 [|a3 l]]]] eqn:Es;
    simpl in Hlen; try lia.
  cbn in Hsec. destruct Hsec as [<-|[]].
  exists page, element, a1, a3. rewrite Es. cbn [crn sectionType sectionNumber].
  destruct (StrFacts.trim_trimmed a1) as [Hf Hl].
  repeat split; auto using StrFacts.length_charAt, StrFacts.length_slice_2_4.
  - destruct a3 as [|c0 [|c1 a3]]; simpl in *; lia.
  - unfold Js.slice, Js.clamp, Js.length. cbn [Z.ltb Z.compare].
    rewrite StrFacts.substring_length_exact; lia.
Qed.

Lemma C7_witness :
  exists page element second fourth,
    catalog (SECTIONS_URL +:+ "?term_in=202009&subj_in=CSC&crse_in=225&schd_in=")
    = Some page
    /\ In element (select "a" page)
    /\ Re.test section_re (text [element]) = true
    /\ Js.split "-" (text [element]) !! 1%nat = Some second
    /\ Js.split "-" (text [element]) !! 3%nat = Some fourth
    /\ crn (mkSection "10752" "A" "01") = Js.trim second
    /\ sectionType (mkSection "10752" "A" "01") = Js.charAt 1 fourth
    /\ sectionNumber (mkSection "10752" "A" "01") = Js.slice fourth 2 4
    /\ Str.first_is Js.is_space (crn (mkSection "10752" "A" "01")) = false
    /\ Str.last_is Js.is_space (crn (mkSection "10752" "A" "01")) = false
    /\ (String.length (sectionType (mkSection "10752" "A" "01")) <= 1)%nat
    /\ (String.length (sectionNumber (mkSection "10752" "A" "01")) <= 2)%nat
    /\ ((4 <= String.length fourth)%nat ->
        String.length (sectionType (mkSection "10752" "A" "01")) = 1%nat
        /\ String.length (sectionNumber (mkSection "10752" "A" "01")) = 2%nat).
Proof.
  apply (C7_section_fields catalog
           "?term_in=202009&subj_in=CSC&crse_in=225&schd_in="
           [mkSection "10752" "A" "01"; mkSection "10753" "B" "01"]).
  - vm_compute. reflexivity.
  - left. reflexivity.
Defined.

(** ** The term of a schedule *)

Lemma term_re_atoms : (Re.body term_re).*2 = term_atoms.
Proof. reflexivity. Qed.

Lemma term_pieces (ms : list string) :
  Forall2 takes term_atoms ms ->
  exists d ds, Js.is_digit d = true
    /\ ms = ["t"; "e"; "r"; "m"; "_"; "i"; "n"; "="; String d ds].
Proof.
  intros HF. unfold term_atoms in HF.
  repeat match goal with
         | H : Forall2 _ (_ :: _) _ |- _ => inversion H; subst; clear H
         | H : Forall2 _ [] _ |- _ => inversion H; subst; clear H
         end.
  cbn [takes] in *. subst.
  match goal with H : _ /\ _ |- _ => destruct H as [Hne Hall] end.
  match goal with |- context [[_; _; _; _; _; _; _; _; ?m]] => destruct m as [|d ds] end;
    [congruence |].
  simpl in Hall. apply andb_true_iff in Hall as [Hd _]. eauto.
Qed.

Lemma match_term_param (s : string) (ms : list string) :
  Re.match_here term_atoms s = Some ms -> param_at 0 s.
Proof.
  intros H. apply ReFacts.match_here_sound in H as [HF [rest ->]].
  apply term_pieces in HF as (d & ds & Hd & ->).
  exists d. split; [|assumption]. cbn.
  match goal with |- context [substring 0 0 ?tail] => now destruct tail end.
Qed.

Lemma param_at_S (i : nat) (c : ascii) (s : string) :
  param_at (S i) (String c s) <-> param_at i s.
Proof. reflexivity. Qed.

Lemma search_term_skips (pre rest : string) :
  (forall i, (i < String.length pre)%nat -> ~ param_at i (pre +:+ rest)) ->
  Re.search term_atoms (pre +:+ rest) = Re.search term_atoms rest.
Proof.
  induction pre as [|c pre IH]; intros H; [reflexivity |].
  change (String c pre +:+ rest) with (String c (pre +:+ rest)) in *.
  cbn [Re.search].
  destruct (Re.match_here term_atoms (String c (pre +:+ rest))) as [ms|] eqn:E.
  - exfalso. apply (H 0%nat); [simpl; lia |]. eapply match_term_param, E.
  - apply IH. intros i Hi Hp. apply (H (S i)); [simpl; lia |].
    now apply param_at_S.
Qed.

Lemma param_at_app (pre s : string) :
  param_at 0 s -> param_at (String.length pre) (pre +:+ s).
Proof.
  induction pre as [|c pre IH]; intros H; [exact H |].
  apply param_at_S. now apply IH.
Qed.

Lemma search_term_none (s : string) :
  (forall i, ~ param_at i s) -> Re.search term_atoms s = None.
Proof.
  intros H. destruct (Re.search term_atoms s) as [ms|] eqn:E; [|reflexivity].
  exfalso. apply ReFacts.search_sound in E as [HF (pre & rest & ->)].
  apply term_pieces in HF as (d & ds & Hd & ->).
  apply (H (String.length pre)), param_at_app.
  exists d. split; [|assumption]. cbn.
  match goal with |- context [substring 0 0 ?tail] => now destruct tail end.
Qed.

Lemma match_term_here (d : ascii) (ds post : string) :
  Js.is_digit d = true -> Str.all Js.is_digit ds = true ->
  Str.first_is Js.is_digit post = false ->
  Re.match_here term_atoms ("term_in=" +:+ String d ds +:+ post)
  = Some ["t"; "e"; "r"; "m"; "_"; "i"; "n"; "="; String d ds].
Proof.
  intros Hd Hds Hpost.
  change ("term_in=" +:+ String d ds +:+ post)
    with (String "t" (String "e" (String "r" (String "m" (String "_"
            (String "i" (String "n" (String "=" (String d (ds +:+ post)))))))))).
  unfold term_atoms.
  rewrite !ReFacts.match_here_lit, (ReFacts.match_here_plus_last _ _ _ _ Hd Hds Hpost).
  reflexivity.
Qed.

Lemma term_of_first (pre digits post : string) :
  digits <> "" -> Str.all Js.is_digit digits = true ->
  Str.first_is Js.is_digit post = false ->
  (forall i, (i < String.length pre)%nat ->
     ~ param_at i (pre +:+ "term_in=" +:+ digits +:+ post)) ->
  term_of (pre +:+ "term_in=" +:+ digits +:+ post) = digits.
Proof.
  intros Hne Hall Hpost Hfirst.
  destruct digits as [|d ds]; [congruence |].
  simpl in Hall. apply andb_true_iff in Hall as [Hd Hds].
  unfold term_of, Re.exec, Re.pieces. cbn [Re.anchored term_re].
  rewrite term_re_atoms, (search_term_skips _ _ Hfirst).
  assert (Hm := match_term_here d ds post Hd Hds Hpost).
  assert (Hs : Re.search term_atoms ("term_in=" +:+ String d ds +:+ post)
               = Some ["t"; "e"; "r"; "m"; "_"; "i"; "n"; "="; String d ds]).
  { change ("term_in=" +:+ String d ds +:+ post)
      with (String "t" ("erm_in=" +:+ String d ds +:+ post)) in *.
    cbn [Re.search]. now rewrite Hm. }
  rewrite Hs. reflexivity.
Qed.

Lemma term_of_none (schedule : string) :
  (forall i, ~ param_at i schedule) -> term_of schedule = "0".
Proof.
  intros H. unfold term_of, Re.exec, Re.pieces. cbn [Re.anchored term_re].
  now rewrite term_re_atoms, (search_term_none _ H).
Qed.

(** ** Departments apart *)

Lemma forallb_false {A} (f : A -> bool) (l : list A) :
  forallb f l = false <-> exists x, In x l /\ f x = false.
Proof.
  induction l as [|a l IH]; simpl.
  - split; [discriminate | intros (x & [] & _)].
  - rewrite andb_false_iff, IH. split.
    + intros [H|(x & Hx & H)]; eauto.
    + intros (x & [->|Hx] & H); eauto.
Qed.

Lemma fails_within_iff web department :
  fails_within web department <-> department_ok web department = false.
Proof.
  unfold fails_within, department_ok.
  destruct (web (BASE_URL +:+ department)) as [listing|]; [|tauto].
  rewrite forallb_false. split.
  - intros [H|(l & code & [= <-] & Hc & H)]; [discriminate |].
    exists code. split; [assumption |]. unfold course_ok.
    destruct H as [->|(page & schedule & -> & Hs & H)]; [reflexivity |].
    apply forallb_false. exists schedule. split; [assumption |].
    unfold fetched. now rewrite H.
  - intros (code & Hc & H). right. exists listing, code.
    split; [reflexivity |]. split; [assumption |].
    unfold course_ok in H.
    destruct (web (course_url department code)) as [page|]; [|now left].
    right. apply forallb_false in H as (schedule & Hs & H).
    exists page, schedule. repeat split; auto.
    unfold fetched in H. now destruct (web (SECTIONS_URL +:+ schedule)).
Qed.

Lemma count_occ_filter (p : string -> bool) (l : list string) (x : string) :
  p x = true ->
  count_occ string_dec (List.filter p l) x = count_occ string_dec l x.
Proof.
  intros Hp. induction l as [|a l IH]; [reflexivity |].
  cbn [List.filter]. destruct (string_dec a x) as [->|Hne].
  - rewrite Hp. cbn [count_occ]. destruct (string_dec x x); congruence.
  - destruct (p a); cbn [count_occ]; destruct (string_dec a x); congruence.
Qed.

Lemma filter_other_same web department d :
  d <> department ->
  List.filter (other_course department) (department_block web d) = department_block web d.
Proof.
  intros Hne. apply forallb_filter_id, forallb_forall. intros c Hc.
  apply department_block_subject in Hc. unfold other_course. rewrite Hc.
  now apply negb_true_iff, String.eqb_neq.
Qed.

Lemma filter_other_own web department :
  List.filter (other_course department) (department_block web department) = [].
Proof.
  assert (H : forall c, In c (department_block web department) -> subject c = department)
    by apply department_block_subject.
  induction (department_block web department) as [|c l IH]; [reflexivity |].
  cbn [List.filter]. unfold other_course at 1.
  rewrite (H c (or_introl eq_refl)), String.eqb_refl. cbn.
  apply IH. intros c' Hc'. apply H. now right.
Qed.

Lemma other_department_own department : other_department department department = false.
Proof. unfold other_department. now rewrite String.eqb_refl. Qed.

Lemma other_department_other department d :
  d <> department -> other_department department d = true.
Proof.
  intros H. unfold other_department. apply String.eqb_neq in H. now rewrite H.
Qed.

(** ** C2: the section lookups of one course *)

(** C2, as stated, fails: the lookup of the second schedule is issued after
    the lookup of the first has settled, so the two are never outstanding
    together. *)
Lemma C2_counterexample :
  trace (getOffered two_schedules "CSC" "225")
  = [Issued (BASE_URL +:+ "CSC/225.html"); Settled (BASE_URL +:+ "CSC/225.html");
     Issued (SECTIONS_URL +:+ "?term_in=202009");
     Settled (SECTIONS_URL +:+ "?term_in=202009");
     Issued (SECTIONS_URL +:+ "?term_in=202101");
     Settled (SECTIONS_URL +:+ "?term_in=202101")]
  /\ together (trace (getOffered two_schedules "CSC" "225"))
       [SECTIONS_URL +:+ "?term_in=202009"; SECTIONS_URL +:+ "?term_in=202101"]
     = false.
Proof. split; vm_compute; reflexivity. Qed.

Lemma outstanding_requests (urls : list string) (k : nat) :
  (length (outstanding (take k (List.flat_map request_log urls))) <= 1)%nat.
Proof.
  unfold outstanding. revert k. induction urls as [|url urls IH]; intros k.
  - destruct k; simpl; lia.
  - cbn [List.flat_map request_log app].
    destruct k as [|[|k]]; [simpl; lia | simpl; lia |].
    cbn [take fold_left step app remove_first]. rewrite String.eqb_refl.
    apply IH.
Qed.

(** C2, amended.  The section lookups of one course are issued one at a
    time, in the order of its schedules: after the request for the course
    page, each lookup is issued when the one before it has settled, up to
    the first that rejects, so that the course never has two requests
    outstanding; and the records of the schedules are put together in the
    order of the schedules. *)
Theorem C2_section_lookups_one_at_a_time (web : Web) (subject code : string) :
  (forall k,
      (length (outstanding (take k (trace (getOffered web subject code)))) <= 1)%nat)
  /\ (forall page,
         web (course_url subject code) = Some page ->
         trace (getOffered web subject code)
         = request_log (course_url subject code)
             ++ List.flat_map (fun schedule => request_log (SECTIONS_URL +:+ schedule))
                  (attempted web (schedules_of page)))
  /\ (forall courses,
         value (getOffered web subject code) = Ok courses ->
         exists page,
           web (course_url subject code) = Some page
           /\ courses
              = List.flat_map (schedule_records web subject code (title_of page))
                  (schedules_of page)).
Proof.
  assert (Htrace : trace (getOffered web subject code)
                   = List.flat_map request_log
                       (course_url subject code
                          :: match web (course_url subject code) with
                             | Some page =>
                                 List.map (fun schedule => SECTIONS_URL +:+ schedule)
                                   (attempted web (schedules_of page))
                             | None => []
                             end)).
  { unfold trace. rewrite getOffered_run. cbn [snd app List.flat_map]. f_equal.
    destruct (web (course_url subject code)) as [page|]; [|reflexivity].
    unfold sections_log. induction (attempted web (schedules_of page)) as [|s l IH];
      [reflexivity |]. cbn [List.flat_map List.map]. now rewrite IH. }
  split; [|split].
  - intros k. rewrite Htrace. apply outstanding_requests.
  - intros page Hpage. unfold trace. rewrite getOffered_run, Hpage. reflexivity.
  - intros courses H. rewrite value_getOffered in H.
    unfold course_ok, course_block in H.
    destruct (web (course_url subject code)) as [page|]; [|discriminate].
    exists page. split; [reflexivity |].
    destruct (all_fetched web (schedules_of page)); [congruence | discriminate].
Qed.

Lemma C2_witness :
  (forall k,
      (length (outstanding (take k (trace (getOffered two_schedules "CSC" "225")))) <= 1)%nat)
  /\ trace (getOffered two_schedules "CSC" "225")
     = request_log (course_url "CSC" "225")
         ++ List.flat_map (fun schedule => request_log (SECTIONS_URL +:+ schedule))
              ["?term_in=202009"; "?term_in=202101"]
  /\ exists page,
       two_schedules (course_url "CSC" "225") = Some page
       /\ [mkCourse "225" [mkSection "10752" "A" "01"] "CSC" "CSC 225" "202009";
           mkCourse "225" [mkSection "20752" "A" "01"] "CSC" "CSC 225" "202101"]
          = List.flat_map (schedule_records two_schedules "CSC" "225" (title_of page))
              (schedules_of page).
Proof.
  destruct (C2_section_lookups_one_at_a_time two_schedules "CSC" "225")
    as (Hone & Htrace & Hrecords).
  split; [exact Hone |]. split.
  - apply (Htrace
             [Elem "h2" [] [Text "CSC 225"];
              Elem "ul" [("id", "schedules")]
                [link "x?term_in=202009" "September 2020";
                 link "x?term_in=202101" "January 2021"]]).
    reflexivity.
  - apply Hrecords. vm_compute. reflexivity.
Defined.

(** * Further properties of the extractors and of the orchestrator *)

(** ** The schedule keys of a course page *)

Lemma substring_skip (p q : string) :
  substring (String.length p) (String.length q) (p +:+ q) = q.
Proof.
  induction p as [|a p IH]; [apply StrFacts.substring_0_length | exact IH].
Qed.

Lemma before_from_first c s : s = Str.before c s +:+ from_first c s.
Proof.
  induction s as [|a s IH]; [reflexivity |].
  simpl. destruct (Ascii.eqb a c); [reflexivity |].
  simpl. now rewrite <- IH.
Qed.

Lemma before_has_none c s : Str.contains c (Str.before c s) = false.
Proof.
  induction s as [|a s IH]; [reflexivity |].
  simpl. destruct (Ascii.eqb a c) eqn:E; [reflexivity |].
  simpl. now rewrite E.
Qed.

Lemma from_first_head c s :
  Str.contains c s = true -> Str.first_is (Ascii.eqb c) (from_first c s) = true.
Proof.
  induction s as [|a s IH]; [discriminate |].
  simpl. destruct (Ascii.eqb_spec a c) as [->|Hne]; [|exact IH].
  intros _. simpl. apply Ascii.eqb_refl.
Qed.

Lemma substring_last (s : string) :
  substring (Nat.pred (String.length s))
    (String.length s - Nat.pred (String.length s)) s
  = last_char s.
Proof.
  induction s as [|a s IH]; [reflexivity |].
  destruct s as [|b s]; [reflexivity |].
  change (Nat.pred (String.length (String a (String b s))))
    with (S (Nat.pred (String.length (String b s)))).
  change (substring (S ?n) ?m (String a ?t)) with (substring n m t).
  change (last_char (String a (String b s))) with (last_char (String b s)).
  rewrite <- IH. f_equal.
Qed.

(** [temp.slice(temp.indexOf('?'), temp.length)] *)
Lemma slice_query (temp : string) :
  Js.slice temp (Js.indexOf "?" temp) (Js.length temp) = query_part temp.
Proof.
  unfold query_part, Js.indexOf. destruct (Str.contains "?" temp) eqn:E.
  - rewrite StrFacts.indexOf_from_present by assumption.
    unfold Js.slice, Js.clamp, Js.length.
    pose proof (before_from_first "?" temp) as Hsplit.
    assert (Hlen : String.length temp
                   = (String.length (Str.before "?" temp)
                      + String.length (from_first "?" temp))%nat)
      by (rewrite Hsplit at 1; apply StrFacts.length_app).
    destruct (Z.ltb_spec (0 + Z.of_nat (String.length (Str.before "?" temp))) 0);
      [lia |].
    destruct (Z.ltb_spec (Z.of_nat (String.length temp)) 0); [lia |].
    replace (Z.to_nat (Z.min _ _)) with (String.length (Str.before "?" temp)) by lia.
    replace (Z.to_nat (Z.max _ 0)) with (String.length (from_first "?" temp)) by lia.
    rewrite Hsplit at 3. apply substring_skip.
  - rewrite StrFacts.indexOf_from_absent by assumption.
    unfold Js.slice, Js.clamp, Js.length. cbn [Z.ltb Z.compare].
    destruct (Z.ltb_spec (Z.of_nat (String.length temp)) 0); [lia |].
    rewrite <- substring_last. f_equal; lia.
Qed.

(** X1.  The schedule keys of a course page are, in document order, one for
    each non-empty hyperlink target inside the [schedules] region: the target
    from its first [?] on when it has one, so that the key begins with [?]
    and what is dropped holds no [?]; and the last character of the target
    when it has no [?]. *)
Theorem schedule_keys_of_a_page (page : document) :
  schedules_of page = List.map query_part (List.filter Js.truthy (region_targets page))
  /\ (forall t, Str.contains "?" t = true ->
        t = Str.before "?" t +:+ query_part t
        /\ Str.contains "?" (Str.before "?" t) = false
        /\ Str.first_is (Ascii.eqb "?") (query_part t) = true)
  /\ (forall t, Str.contains "?" t = false -> query_part t = last_char t).
Proof.
  split; [|split].
  - unfold schedules_of, region_targets. rewrite each_flat_map.
    induction (find_by_id "schedules" "a" page) as [|element l IH]; [reflexivity |].
    cbn [List.flat_map omap list_omap]. unfold schedule_of at 1.
    destruct (attr "href" element) as [t|]; [|exact IH].
    cbn [List.filter]. destruct (Js.truthy t); [|exact IH].
    cbn [List.map app]. now rewrite IH, slice_query.
  - intros t Ht. unfold query_part. rewrite Ht.
    split; [apply before_from_first |].
    split; [apply before_has_none | now apply from_first_head].
  - intros t Ht. unfold query_part. now rewrite Ht.
Qed.

(** ** When the extractors reject *)

(** X2.  [getSections] rejects exactly when its request does, and then with
    its own message: a link text that the pattern accepts always has the
    segments that the loop reads, so reading them never throws; and each link
    adds at most one Section. *)
Theorem getSections_rejects_with_its_request (web : Web) (params : string) :
  (forall msg,
      value (getSections web params) = Err msg
      <-> web (SECTIONS_URL +:+ params) = None /\ msg = "Failed to get sections")
  /\ (forall page,
         web (SECTIONS_URL +:+ params) = Some page ->
         exists secs,
           value (getSections web params) = Ok secs
           /\ (length secs <= length (select "a" page))%nat)
  /\ (forall element,
         exists pushed, section_of element = Ok pushed /\ (length pushed <= 1)%nat).
Proof.
  assert (Hone : forall element, (length (records element) <= 1)%nat).
  { intros element. unfold records, section_of.
    destruct (Js.truthy (text [element]) && Re.test section_re (text [element]));
      [|simpl; lia].
    destruct (Js.split "-" (text [element]) !! 1%nat),
      (Js.split "-" (text [element]) !! 3%nat); simpl; lia. }
  split; [|split].
  - intros msg. unfold value. rewrite getSections_run. cbn [fst].
    destruct (web (SECTIONS_URL +:+ params)); split.
    + discriminate.
    + intros [H _]. discriminate.
    + intros [= <-]. auto.
    + intros [_ ->]. reflexivity.
  - intros page Hpage. exists (sections_in page). split.
    + unfold value. now rewrite getSections_run, Hpage.
    + unfold sections_in. induction (select "a" page) as [|element l IH]; [simpl; lia |].
      cbn [List.flat_map]. rewrite length_app. cbn [length].
      specialize (Hone element). lia.
  - intros element. exists (records element). split; [apply section_of_ok | apply Hone].
Qed.

Lemma getSections_rejects_witness :
  exists secs,
    value (getSections catalog "?term_in=202009&subj_in=CSC&crse_in=225&schd_in=") = Ok secs
    /\ (length secs
        <= length
             (select "a"
                [link "s1" "Algorithms and Data Structures I - 10752 - CSC 225 - A01";
                 link "s2" "Algorithms and Data Structures I - 10753 - CSC 225 - B01";
                 link "help" "Help"]))%nat.
Proof.
  destruct (getSections_rejects_with_its_request catalog
              "?term_in=202009&subj_in=CSC&crse_in=225&schd_in=") as (_ & Hok & _).
  apply Hok. reflexivity.
Defined.

(** X3.  [getOffered] rejects exactly when the request for the course page
    rejects or the sections request of one of the schedules of the page does;
    whichever it is, the message is that of [getOffered]: the message of
    [getSections] never leaves it. *)
Theorem getOffered_rejects_iff (web : Web) (subject code msg : string) :
  value (getOffered web subject code) = Err msg
  <-> msg = "Failed to get avaliable sections"
      /\ (web (course_url subject code) = None
          \/ exists page schedule,
               web (course_url subject code) = Some page
               /\ In schedule (schedules_of page)
               /\ web (SECTIONS_URL +:+ schedule) = None).
Proof.
  rewrite value_getOffered. unfold course_ok.
  destruct (web (course_url subject code)) as [page|].
  - destruct (all_fetched web (schedules_of page)) eqn:E; split.
    + discriminate.
    + intros [_ [H|(page' & schedule & [= <-] & Hs & Hnone)]]; [discriminate |].
      exfalso. unfold all_fetched in E.
      rewrite forallb_forall in E. specialize (E schedule Hs).
      unfold fetched in E. rewrite Hnone in E. discriminate.
    + intros [= <-]. split; [reflexivity |]. right.
      apply forallb_false in E as (schedule & Hs & H).
      exists page, schedule. repeat split; auto.
      unfold fetched in H. now destruct (web (SECTIONS_URL +:+ schedule)).
    + intros [-> _]. reflexivity.
  - split.
    + intros [= <-]. auto.
    + intros [-> _]. reflexivity.
Qed.

(** The tasks that [main] joins for a department reject with one message. *)
Lemma offered_tasks_message web department codes msg :
  Err msg ∈ List.map (fun code => value (getOffered web department code)) codes ->
  msg = "Failed to get avaliable sections".
Proof.
  intros H. apply list_elem_of_In, in_map_iff in H as (code & H & _).
  now apply getOffered_rejects_iff in H as [-> _].
Qed.

(** X4.  The processing of a department fails with the message of
    [getCourseCodes] when its listing cannot be fetched, and with the message
    of [getOffered] when the listing is fetched and one of its courses
    fails; which of the failing courses settles first does not matter. *)
Theorem department_failure_message
    (web : Web) (order : string -> list nat) (department msg : string) :
  department_courses web order department = Err msg
  <-> (web (BASE_URL +:+ department) = None /\ msg = "Failed to get course data")
      \/ (exists listing code,
            web (BASE_URL +:+ department) = Some listing
            /\ In code (codes_of listing)
            /\ course_ok web department code = false
            /\ msg = "Failed to get avaliable sections").
Proof.
  destruct (department_ok web department) eqn:E.
  - rewrite (department_courses_ok web order department E). split; [discriminate |].
    unfold department_ok in E.
    intros [[H _]|(listing & code & H & Hc & Hfail & _)]; rewrite H in E;
      [discriminate |].
    rewrite forallb_forall in E. rewrite (E code Hc) in Hfail. discriminate.
  - unfold department_ok in E. unfold department_courses, value in *.
    rewrite getCourseCodes_run. cbn [fst].
    destruct (web (BASE_URL +:+ department)) as [listing|].
    + apply forallb_false in E as (code & Hc & Hfail).
      assert (Hin : Err "Failed to get avaliable sections"
                    ∈ List.map (fun code => value (getOffered web department code))
                        (codes_of listing)).
      { apply list_elem_of_In, in_map_iff. exists code. split; [|assumption].
        now rewrite value_getOffered, Hfail. }
      destruct (promise_all_rejected (order department) _ _ Hin) as (m & Hm & Hmin).
      apply offered_tasks_message in Hmin as ->.
      unfold value in Hm. rewrite Hm. split.
      * intros [= <-]. right. exists listing, code. auto.
      * intros [[H _]|(_ & _ & _ & _ & _ & ->)]; [discriminate | reflexivity].
    + split.
      * intros [= <-]. auto.
      * intros [[_ ->]|(listing & code & H & _)]; [reflexivity | discriminate].
Qed.

Lemma getOffered_rejects_witness :
  value (getOffered (serve []) "CSC" "225") = Err "Failed to get avaliable sections".
Proof.
  apply (getOffered_rejects_iff (serve []) "CSC" "225").
  split; [reflexivity | left; reflexivity].
Defined.

Lemma department_failure_witness :
  department_courses catalog in_order "MATH" = Err "Failed to get course data".
Proof.
  apply (department_failure_message catalog in_order "MATH").
  left. split; reflexivity.
Defined.

(** ** The Failure Set and the records of a run *)

Lemma failing_sublist web departments : sublist (failing web departments) departments.
Proof.
  unfold failing. induction departments as [|d l IH]; [constructor |].
  cbn [List.filter]. destruct (negb (department_ok web d)); now constructor.
Qed.

(** X5.  At the end of a run the Failure Set holds exactly the listed
    departments in whose processing a step failed, in the order of the
    catalog page, and every listed department is either in the Failure Set
    or not, never both recorded and contributing: the number of its entries
    and of the departments that succeeded add up to the number listed. *)
Theorem failure_set_is_the_failing_departments
    (web : Web) (order : string -> list nat)
    (results : list Course) (failed : list string) :
  main web order = Ok (results, failed) ->
  exists page,
    web BASE_URL = Some page
    /\ (forall department,
          In department failed
          <-> In department (each (select "a" page) department_of)
              /\ fails_within web department)
    /\ sublist failed (each (select "a" page) department_of)
    /\ (length failed + length (succeeded web (each (select "a" page) department_of))
        = length (each (select "a" page) department_of))%nat.
Proof.
  intros H. apply main_ok in H as (page & Hpage & _ & ->).
  exists page. split; [assumption |].
  set (departments := each (select "a" page) department_of).
  split; [|split].
  - intros d. unfold failing. rewrite filter_In, fails_within_iff, negb_true_iff.
    reflexivity.
  - apply failing_sublist.
  - unfold failing, succeeded. clearbody departments.
    induction departments as [|d l IH]; [reflexivity |].
    cbn [List.filter]. destruct (department_ok web d); cbn [negb length]; lia.
Qed.

Lemma failure_set_witness :
  exists page,
    catalog BASE_URL = Some page
    /\ (forall department,
          In department ["MATH"]
          <-> In department (each (select "a" page) department_of)
              /\ fails_within catalog department)
    /\ sublist ["MATH"] (each (select "a" page) department_of)
    /\ (length ["MATH"] + length (succeeded catalog (each (select "a" page) department_of))
        = length (each (select "a" page) department_of))%nat.
Proof.
  apply (failure_set_is_the_failing_departments catalog in_order
           [mkCourse "225" [mkSection "10752" "A" "01"; mkSection "10753" "B" "01"]
              "CSC" " CSC 225 - Algorithms and Data Structures I " "202009"]).
  vm_compute. reflexivity.
Defined.

Lemma in_department_block_code web department c :
  In c (department_block web department) ->
  exists listing,
    web (BASE_URL +:+ department) = Some listing
    /\ In (code c) (codes_of listing)
    /\ In c (course_block web department (code c)).
Proof.
  unfold department_block.
  destruct (web (BASE_URL +:+ department)) as [listing|]; [|intros []].
  intros H. apply in_flat_map in H as (code0 & Hcode & H).
  pose proof H as Hc.
  apply in_course_block in Hc as (page & schedule & doc & _ & _ & _ & _ & ->).
  exists listing. cbn [code]. auto.
Qed.

(** X6.  Every Course record of the Crawl Result can be traced to the pages
    it was read from: its subject is a department of the catalog page that
    is not in the Failure Set, its code is a course code of the listing of
    that department, its title is read from the page of that course, and
    its sections and its term come from one schedule of that page. *)
Theorem every_record_has_a_source
    (web : Web) (order : string -> list nat)
    (results : list Course) (failed : list string) (c : Course) :
  main web order = Ok (results, failed) -> In c results ->
  exists catalog_page listing page schedule doc,
    web BASE_URL = Some catalog_page
    /\ In (subject c) (each (select "a" catalog_page) department_of)
    /\ ~ In (subject c) failed
    /\ web (BASE_URL +:+ subject c) = Some listing
    /\ In (code c) (codes_of listing)
    /\ web (course_url (subject c) (code c)) = Some page
    /\ title c = title_of page
    /\ In schedule (schedules_of page)
    /\ web (SECTIONS_URL +:+ schedule) = Some doc
    /\ sections c = sections_in doc
    /\ term c = term_of schedule.
Proof.
  intros H Hc. apply main_ok in H as (catalog_page & Hpage & -> & ->).
  apply in_flat_map in Hc as (d & Hd & Hc).
  pose proof (department_block_subject _ _ _ Hc) as Hsub. subst d.
  apply filter_In in Hd as [Hlisted Hok].
  apply in_department_block_code in Hc as (listing & Hlisting & Hcode & Hc).
  apply in_course_block in Hc as (page & schedule & doc & Hp & Hs & Hdoc & _ & Heq).
  exists catalog_page, listing, page, schedule, doc.
  rewrite Heq in *. cbn [subject code title sections term] in *.
  split; [assumption |]. split; [assumption |]. split.
  { unfold failing. rewrite filter_In, Hok. intros [_ H]. discriminate. }
  repeat split; assumption.
Qed.

Lemma every_record_witness :
  exists catalog_page listing page schedule doc,
    catalog BASE_URL = Some catalog_page
    /\ In "CSC" (each (select "a" catalog_page) department_of)
    /\ ~ In "CSC" ["MATH"]
    /\ catalog (BASE_URL +:+ "CSC") = Some listing
    /\ In "225" (codes_of listing)
    /\ catalog (course_url "CSC" "225") = Some page
    /\ " CSC 225 - Algorithms and Data Structures I " = title_of page
    /\ In schedule (schedules_of page)
    /\ catalog (SECTIONS_URL +:+ schedule) = Some doc
    /\ [mkSection "10752" "A" "01"; mkSection "10753" "B" "01"] = sections_in doc
    /\ "202009" = term_of schedule.
Proof.
  apply (every_record_has_a_source catalog in_order
           [mkCourse "225" [mkSection "10752" "A" "01"; mkSection "10753" "B" "01"]
              "CSC" " CSC 225 - Algorithms and Data Structures I " "202009"]
           ["MATH"]
           (mkCourse "225" [mkSection "10752" "A" "01"; mkSection "10753" "B" "01"]
              "CSC" " CSC 225 - Algorithms and Data Structures I " "202009")).
  - vm_compute. reflexivity.
  - left. reflexivity.
Defined.

(** ** Pages with nothing to read *)

(** X7.  A department whose listing is fetched and holds no course link is
    no failure: whatever the completion order, its processing succeeds with
    no record, and it is not in the Failure Set of the run. *)
Theorem department_without_courses
    (web : Web) (order : string -> list nat) (department : string) (listing : document) :
  web (BASE_URL +:+ department) = Some listing ->
  codes_of listing = [] ->
  department_courses web order department = Ok []
  /\ (forall results failed,
         main web order = Ok (results, failed) -> ~ In department failed).
Proof.
  intros Hlisting Hnone.
  assert (Hok : department_ok web department = true).
  { unfold department_ok. now rewrite Hlisting, Hnone. }
  split.
  - rewrite (department_courses_ok web order department Hok).
    unfold department_block. now rewrite Hlisting, Hnone.
  - intros results failed H. apply main_ok in H as (page & _ & _ & ->).
    unfold failing. rewrite filter_In, Hok. intros [_ H]. discriminate.
Qed.

Lemma department_without_courses_witness :
  department_courses catalog_with_math reversed "MATH" = Ok []
  /\ (forall results failed,
         main catalog_with_math reversed = Ok (results, failed) -> ~ In "MATH" failed).
Proof.
  apply (department_without_courses catalog_with_math reversed "MATH" []);
    reflexivity.
Defined.

Lemma length_schedule_records web subject code title schedule :
  (length (schedule_records web subject code title schedule) <= 1)%nat.
Proof.
  unfold schedule_records.
  destruct (web (SECTIONS_URL +:+ schedule)) as [doc|]; [|simpl; lia].
  destruct (sections_in doc); simpl; lia.
Qed.

(** X8.  A course gives at most one record for each schedule of its page; a
    course page with no schedule link gives no record, and then the request
    for the page is the only request of the call. *)
Theorem records_of_a_course
    (web : Web) (subject code : string) (page : document) :
  web (course_url subject code) = Some page ->
  (forall courses,
      value (getOffered web subject code) = Ok courses ->
      (length courses <= length (schedules_of page))%nat)
  /\ (schedules_of page = [] ->
      value (getOffered web subject code) = Ok []
      /\ trace (getOffered web subject code) = request_log (course_url subject code)).
Proof.
  intros Hpage. split.
  - intros courses H. apply getOffered_ok in H as ->.
    unfold course_block. rewrite Hpage.
    induction (schedules_of page) as [|schedule l IH]; [simpl; lia |].
    cbn [List.flat_map]. rewrite length_app. cbn [length].
    pose proof (length_schedule_records web subject code (title_of page) schedule).
    lia.
  - intros Hnone. unfold value, trace. rewrite getOffered_run.
    unfold course_ok, course_block. rewrite Hpage, Hnone. split; reflexivity.
Qed.

Lemma records_of_a_course_witness :
  (forall courses,
      value (getOffered two_schedules "CSC" "225") = Ok courses ->
      (length courses
       <= length
            (schedules_of
               [Elem "h2" [] [Text "CSC 225"];
                Elem "ul" [("id", "schedules")]
                  [link "x?term_in=202009" "September 2020";
                   link "x?term_in=202101" "January 2021"]]))%nat)
  /\ value (getOffered (serve [(course_url "CSC" "225", [Elem "h2" [] [Text "CSC 225"]])])
              "CSC" "225") = Ok []
  /\ trace (getOffered (serve [(course_url "CSC" "225", [Elem "h2" [] [Text "CSC 225"]])])
              "CSC" "225")
     = request_log (course_url "CSC" "225").
Proof.
  split.
  - apply (records_of_a_course two_schedules "CSC" "225"). reflexivity.
  - apply (records_of_a_course
             (serve [(course_url "CSC" "225", [Elem "h2" [] [Text "CSC 225"]])])
             "CSC" "225" [Elem "h2" [] [Text "CSC 225"]]);
      reflexivity.
Defined.

(** ** From a listed target to the page of the course *)

(** X9.  For a listed target [name.html], where [name] begins with a digit
    from 0 to 7 and holds no [.], the course code is [name], and the first
    request of [getOffered] for that code is for the target itself, below
    the directory of the department. *)
Theorem course_page_is_the_listed_target
    (web : Web) (department name : string) (element : node) :
  attr "href" element = Some (name +:+ ".html") ->
  Str.first_is Js.is_octal name = true ->
  Str.contains "." name = false ->
  course_of element = [name]
  /\ exists rest,
       trace (getOffered web department name)
       = Issued (BASE_URL +:+ department +:+ "/" +:+ name +:+ ".html") :: rest.
Proof.
  intros Hhref Hdigit Hdot. split.
  - unfold course_of. rewrite Hhref. unfold course_re.
    rewrite ReFacts.test_plus_anchored, truthy_first_is.
    assert (Hfirst : Str.first_is Js.is_octal (name +:+ ".html") = true)
      by (destruct name; [discriminate | exact Hdigit]).
    rewrite Hfirst. f_equal.
    assert (Hhas : Str.contains "." (name +:+ ".html") = true).
    { clear. induction name as [|a s IH]; [reflexivity |].
      simpl. rewrite IH. apply orb_true_r. }
    rewrite (StrFacts.slice_before _ _ Hhas).
    clear -Hdot. induction name as [|a s IH]; [reflexivity |].
    simpl in *. destruct (Ascii.eqb a "."); [discriminate |].
    simpl in Hdot. now rewrite IH.
  - unfold trace. rewrite getOffered_run. cbn [snd app request_log]. eauto.
Qed.

Lemma course_page_witness :
  course_of (link "225.html" "225.html") = ["225"]
  /\ exists rest,
       trace (getOffered catalog "CSC" "225")
       = Issued (BASE_URL +:+ "CSC" +:+ "/" +:+ "225" +:+ ".html") :: rest.
Proof.
  apply (course_page_is_the_listed_target catalog "CSC" "225" (link "225.html" "225.html"));
    reflexivity.
Defined.

(** ** The term is a number *)

Lemma term_pieces_digits (ms : list string) :
  Forall2 takes term_atoms ms ->
  exists run,
    run <> "" /\ Str.all Js.is_digit run = true
    /\ ms = ["t"; "e"; "r"; "m"; "_"; "i"; "n"; "="; run].
Proof.
  intros HF. unfold term_atoms in HF.
  repeat match goal with
         | H : Forall2 _ (_ :: _) _ |- _ => inversion H; subst; clear H
         | H : Forall2 _ [] _ |- _ => inversion H; subst; clear H
         end.
  cbn [takes] in *. subst.
  match goal with H : _ /\ _ |- _ => destruct H as [Hne Hall] end.
  eauto.
Qed.

(** X10.  Whatever the schedule, the term of its record is a non-empty
    string of digits: the digits captured after [term_in=], or ["0"]. *)
Theorem term_is_a_digit_string (schedule : string) :
  term_of schedule <> "" /\ Str.all Js.is_digit (term_of schedule) = true.
Proof.
  unfold term_of, Re.exec, Re.pieces. cbn [Re.anchored term_re].
  rewrite term_re_atoms.
  destruct (Re.search term_atoms schedule) as [ms|] eqn:E;
    [|split; [discriminate | reflexivity]].
  apply ReFacts.search_sound in E as [HF _].
  apply term_pieces_digits in HF as (run & Hne & Hall & ->).
  cbn. destruct run as [|d ds]; [congruence |].
  cbn. split; [discriminate | exact Hall].
Qed.

(** ** Link texts of the expected shape *)

Lemma greedy_some cls k (m rest : string) :
  Str.all cls m = true -> is_Some (k rest) -> is_Some (Re.greedy cls k (m +:+ rest)).
Proof.
  intros Hm Hk. induction m as [|c m IH].
  - change ("" +:+ rest) with rest. destruct Hk as [r Hr].
    destruct rest as [|b rest]; cbn [Re.greedy].
    + rewrite Hr. eauto.
    + destruct (cls b); [|rewrite Hr; eauto].
      destruct (Re.greedy cls k rest) as [[|x xs]|]; try (rewrite Hr); eauto.
  - simpl in Hm. apply andb_true_iff in Hm as [Hc Hm].
    change (String c m +:+ rest) with (String c (m +:+ rest)).
    cbn [Re.greedy]. rewrite Hc. destruct (IH Hm) as [r Hr].
    destruct (ReFacts.greedy_sound _ _ _ _ Hr) as (x & xs & _ & -> & _).
    rewrite Hr. eauto.
Qed.

Lemma match_star_some cls p (m rest : string) :
  Str.all cls m = true -> is_Some (Re.match_here p rest) ->
  is_Some (Re.match_here (Re.Star cls :: p) (m +:+ rest)).
Proof.
  intros Hm Hp.
  change (Re.match_here (Re.Star cls :: p) (m +:+ rest))
    with (Re.greedy cls (Re.match_here p) (m +:+ rest)).
  now apply greedy_some.
Qed.

Lemma match_lit_some c p (s : string) :
  is_Some (Re.match_here p s) -> is_Some (Re.match_here (Re.Lit c :: p) (String c s)).
Proof.
  intros [r Hr]. rewrite ReFacts.match_here_lit, Hr. eauto.
Qed.

Lemma search_some p s : is_Some (Re.match_here p s) -> is_Some (Re.search p s).
Proof.
  intros [r Hr]. destruct s; cbn [Re.search]; rewrite Hr; eauto.
Qed.

Lemma section_re_atoms : (Re.body section_re).*2 = section_atoms.
Proof. reflexivity. Qed.

(** The pattern accepts every text of the shape
    [title - number - course - section]. *)
Lemma section_re_accepts (a b c d : string) :
  Str.all (fun x => Js.is_word x || Js.is_space x) a = true ->
  Str.all (fun x => Js.is_digit x || Js.is_space x) b = true ->
  Str.all Js.is_any c = true ->
  Re.test section_re (a +:+ "-" +:+ b +:+ "-" +:+ c +:+ "-" +:+ d) = true.
Proof.
  intros Ha Hb Hc. unfold Re.test, Re.pieces. cbn [Re.anchored section_re].
  change (Re.body _).*2 with section_atoms.
  enough (H : is_Some (Re.search section_atoms
                         (a +:+ "-" +:+ b +:+ "-" +:+ c +:+ "-" +:+ d)))
    by (destruct H as [r ->]; reflexivity).
  apply search_some. unfold section_atoms.
  change ("-" +:+ ?x) with (String "-" x).
  apply match_star_some; [assumption |]. apply match_lit_some.
  apply match_star_some; [assumption |]. apply match_lit_some.
  apply match_star_some; [assumption |]. apply match_lit_some.
  rewrite <- (StrFacts.app_empty_r d).
  change (is_Some (Re.match_here [Re.Star Js.is_any] (d +:+ "")))
    with (is_Some (Re.greedy Js.is_any (Re.match_here []) (d +:+ ""))).
  clear. induction d as [|x d IH].
  - cbn. eauto.
  - change (String x d +:+ "") with (String x (d +:+ "")). cbn [Re.greedy].
    destruct IH as [r Hr].
    destruct (ReFacts.greedy_sound _ _ _ _ Hr) as (m & ms & _ & -> & _).
    rewrite Hr. destruct (Js.is_any x); cbn; eauto.
Qed.

Lemma class_without c cls (s : string) :
  cls c = false -> Str.all cls s = true -> Str.contains c s = false.
Proof.
  intros Hc. induction s as [|a s IH]; [reflexivity |].
  simpl. intros H. apply andb_true_iff in H as [Ha Hs].
  destruct (Ascii.eqb_spec a c) as [->|_]; [congruence | now apply IH].
Qed.

Lemma split_app c (a rest : string) :
  Str.contains c a = false -> Js.split c (a +:+ String c rest) = a :: Js.split c rest.
Proof.
  induction a as [|x a IH]; intros H.
  - simpl. now rewrite Ascii.eqb_refl.
  - simpl in H. apply orb_false_iff in H as [Hx Ha].
    change (String x a +:+ String c rest) with (String x (a +:+ String c rest)).
    cbn [Js.split]. now rewrite Hx, (IH Ha).
Qed.

Lemma split_head c (s : string) : exists rest, Js.split c s = Str.before c s :: rest.
Proof.
  induction s as [|x s [rest IH]]; [now exists [] |].
  simpl. destruct (Ascii.eqb x c); [eauto |]. rewrite IH. eauto.
Qed.

(** X11.  A link whose text is [a-b-c-d], with [a] made of word characters
    and white space, [b] of digits and white space, and [c] free of dashes
    and of line ends, gives exactly one Section: its [crn] is [b] trimmed,
    and its type and number are cut from [d] up to its first dash. *)
Theorem section_of_a_four_part_text (element : node) (a b c d : string) :
  text [element] = a +:+ "-" +:+ b +:+ "-" +:+ c +:+ "-" +:+ d ->
  Str.all (fun x => Js.is_word x || Js.is_space x) a = true ->
  Str.all (fun x => Js.is_digit x || Js.is_space x) b = true ->
  Str.all Js.is_any c = true ->
  Str.contains "-" c = false ->
  section_of element
  = Ok [mkSection (Js.trim b) (Js.charAt 1 (Str.before "-" d))
          (Js.slice (Str.before "-" d) 2 4)].
Proof.
  intros Htext Ha Hb Hc Hdash. unfold section_of. rewrite Htext.
  rewrite (section_re_accepts a b c d Ha Hb Hc).
  assert (Htruthy : Js.truthy (a +:+ "-" +:+ b +:+ "-" +:+ c +:+ "-" +:+ d) = true)
    by now destruct a.
  rewrite Htruthy. cbn [andb].
  repeat progress change ("-" +:+ ?x) with (String "-" x).
  rewrite (split_app "-" a) by (eapply class_without, Ha; reflexivity).
  rewrite (split_app "-" b) by (eapply class_without, Hb; reflexivity).
  rewrite (split_app "-" c) by assumption.
  destruct (split_head "-" d) as [rest ->]. reflexivity.
Qed.

Lemma section_of_a_four_part_witness :
  section_of (link "s" "LEC - 12345 - A - L01 something")
  = Ok [mkSection (Js.trim " 12345 ") (Js.charAt 1 (Str.before "-" " L01 something"))
          (Js.slice (Str.before "-" " L01 something") 2 4)].
Proof.
  apply (section_of_a_four_part_text (link "s" "LEC - 12345 - A - L01 something")
           "LEC " " 12345 " " A " " L01 something");
    reflexivity.
Defined.

Lemma digit_is_no_space (c : ascii) : Js.is_digit c = true -> Js.is_space c = false.
Proof.
  destruct c as [[] [] [] [] [] [] [] []]; vm_compute; congruence.
Qed.

Lemma trimEnd_number (number : string) :
  Str.all Js.is_digit number = true -> Js.trimEnd (number +:+ " ") = number.
Proof.
  induction number as [|x s IH]; [reflexivity |].
  simpl. intros H. apply andb_true_iff in H as [Hx Hs].
  change (String x s +:+ " ") with (String x (s +:+ " ")).
  cbn [Js.trimEnd]. rewrite (IH Hs).
  destruct s; [|reflexivity]. now rewrite (digit_is_no_space x Hx).
Qed.

Lemma trim_number (number : string) :
  Str.all Js.is_digit number = true -> Js.trim (" " +:+ number +:+ " ") = number.
Proof.
  intros H. unfold Js.trim.
  change (" " +:+ number +:+ " ") with (String " " (number +:+ " ")).
  change (Js.trimStart (String " " (number +:+ " ")))
    with (Js.trimStart (number +:+ " ")).
  destruct number as [|x s]; [reflexivity |].
  change (String x s +:+ " ") with (String x (s +:+ " ")).
  cbn [Js.trimStart].
  simpl in H. apply andb_true_iff in H as [Hx Hs].
  rewrite (digit_is_no_space x Hx).
  change (String x (s +:+ " ")) with (String x s +:+ " ").
  apply trimEnd_number. simpl. now rewrite Hx, Hs.
Qed.

Lemma slice_2_4_of_four (c0 c1 c2 c3 : ascii) (s : string) :
  Js.slice (String c0 (String c1 (String c2 (String c3 s)))) 2 4
  = String c2 (String c3 "").
Proof.
  unfold Js.slice, Js.clamp, Js.length. cbn [Z.ltb Z.compare String.length].
  replace (Z.to_nat (Z.min 2 _)) with 2%nat by lia.
  replace (Z.to_nat (Z.max _ 0)) with 2%nat by lia.
  cbn. now destruct s.
Qed.

(** X12.  A link text of the form [title - number - course - TNN...], with
    a single space on each side of the dashes, a title of word characters
    and white space, a number made of digits, and a course free of dashes
    and of line ends, gives the Section whose [crn] is the number, whose
    type is [T] and whose number is [NN]. *)
Theorem section_of_a_listing_line
    (element : node) (title number course rest : string) (t n1 n2 : ascii) :
  text [element]
  = title +:+ " - " +:+ number +:+ " - " +:+ course +:+ " - "
      +:+ String t (String n1 (String n2 rest)) ->
  Str.all (fun x => Js.is_word x || Js.is_space x) title = true ->
  Str.all Js.is_digit number = true ->
  Str.all Js.is_any course = true ->
  Str.contains "-" course = false ->
  t <> "-"%char -> n1 <> "-"%char -> n2 <> "-"%char ->
  section_of element
  = Ok [mkSection number (String t "") (String n1 (String n2 ""))].
Proof.
  intros Htext Htitle Hnumber Hcourse Hdash Ht Hn1 Hn2.
  assert (Hall : forall cls (s : string),
             cls " "%char = true -> Str.all cls s = true ->
             Str.all cls (" " +:+ s +:+ " ") = true).
  { intros cls s Hsp Hs. change (" " +:+ s +:+ " ") with (String " " (s +:+ " ")).
    cbn [Str.all]. rewrite Hsp. cbn [andb].
    induction s as [|x s IH]; [simpl; now rewrite Hsp |].
    simpl in Hs. apply andb_true_iff in Hs as [Hx Hs].
    change (String x s +:+ " ") with (String x (s +:+ " ")).
    cbn [Str.all]. now rewrite Hx, (IH Hs). }
  assert (Hb : Str.all (fun x => Js.is_digit x || Js.is_space x) number = true).
  { clear -Hnumber. induction number as [|x s IH]; [reflexivity |].
    simpl in *. apply andb_true_iff in Hnumber as [-> Hs]. now rewrite (IH Hs). }
  rewrite (section_of_a_four_part_text element (title +:+ " ")
             (" " +:+ number +:+ " ") (" " +:+ course +:+ " ")
             (" " +:+ String t (String n1 (String n2 rest)))).
  - rewrite (trim_number number Hnumber).
    change (" " +:+ String t (String n1 (String n2 rest)))
      with (String " " (String t (String n1 (String n2 rest)))).
    cbn [Str.before]. apply Ascii.eqb_neq in Ht, Hn1, Hn2.
    change (Ascii.eqb " " "-") with false. rewrite Ht, Hn1, Hn2.
    now rewrite slice_2_4_of_four.
  - rewrite Htext. rewrite !StrFacts.app_assoc. reflexivity.
  - clear -Htitle. induction title as [|x s IH]; [reflexivity |].
    simpl in *. apply andb_true_iff in Htitle as [-> Hs]. now rewrite (IH Hs).
  - now apply Hall.
  - now apply Hall.
  - change (" " +:+ course +:+ " ") with (String " " (course +:+ " ")).
    cbn [Str.contains]. change (Ascii.eqb " " "-") with false. cbn [orb].
    clear -Hdash. induction course as [|x s IH]; [reflexivity |].
    simpl in *. apply orb_false_iff in Hdash as [-> Hs]. now rewrite (IH Hs).
Qed.

Lemma section_of_a_listing_line_witness :
  section_of (link "s1" "Algorithms and Data Structures I - 10752 - CSC 225 - A01")
  = Ok [mkSection "10752" "A" "01"].
Proof.
  apply (section_of_a_listing_line
           (link "s1" "Algorithms and Data Structures I - 10752 - CSC 225 - A01")
           "Algorithms and Data Structures I" "10752" "CSC 225" "" "A" "0" "1");
    try reflexivity; discriminate.
Defined.

(** ** The course codes of a listing *)

(** X13.  [getCourseCodes] rejects exactly when its request does, with its
    own message; on a fetched listing it gives, in document order, one code
    for each hyperlink target that begins with a digit from 0 to 7 and for
    no other target; the code of a target that holds a [.] is the part of
    the target before its first [.], and holds no [.] itself (a target with
    no [.] is cut by its last character instead). *)
Theorem course_codes_of_a_listing (web : Web) (department : string) :
  (forall msg,
      value (getCourseCodes web department) = Err msg
      <-> web (BASE_URL +:+ department) = None /\ msg = "Failed to get course data")
  /\ (forall page,
         web (BASE_URL +:+ department) = Some page ->
         value (getCourseCodes web department)
         = Ok (List.map course_code
                 (List.filter (Str.first_is Js.is_octal) (targets page))))
  /\ (forall t,
         Str.contains "." t = true ->
         t = course_code t +:+ from_first "." t
         /\ Str.contains "." (course_code t) = false)
  /\ (forall t, Str.contains "." t = false -> course_code t = Str.drop_last t).
Proof.
  split; [|split; [|split]].
  - intros msg. unfold value. rewrite getCourseCodes_run. cbn [fst].
    destruct (web (BASE_URL +:+ department)); split.
    + discriminate.
    + intros [H _]. discriminate.
    + intros [= <-]. auto.
    + intros [_ ->]. reflexivity.
  - intros page H. unfold value. rewrite getCourseCodes_run, H. cbn [fst].
    now rewrite codes_closed.
  - intros t Ht. unfold course_code. rewrite Ht.
    split; [apply before_from_first | apply before_has_none].
  - intros t Ht. unfold course_code. now rewrite Ht.
Qed.

Lemma course_codes_witness :
  value (getCourseCodes catalog "CSC")
  = Ok (List.map course_code
          (List.filter (Str.first_is Js.is_octal)
             (targets [link "225.html" "225.html"; link "CTs.html" "CTs.html"])))
  /\ "225.html" = course_code "225.html" +:+ from_first "." "225.html"
  /\ Str.contains "." (course_code "225.html") = false.
Proof.
  destruct (course_codes_of_a_listing catalog "CSC") as (_ & Hok & Hdot & _).
  split; [apply Hok; reflexivity | apply Hdot; reflexivity].
Defined.

(** ** What every record of a course carries *)

(** X14.  Every record that [getOffered] gives for a subject and a code
    carries that subject and that code, and all the records of one call
    carry the same title. *)
Theorem records_carry_subject_and_code
    (web : Web) (subject0 code0 : string) (courses : list Course) :
  value (getOffered web subject0 code0) = Ok courses ->
  (forall c, In c courses -> subject c = subject0 /\ code c = code0)
  /\ (forall c c', In c courses -> In c' courses -> title c = title c').
Proof.
  intros H. apply getOffered_ok in H as ->. split.
  - intros c Hc.
    apply in_course_block in Hc as (page & schedule & doc & _ & _ & _ & _ & ->).
    split; reflexivity.
  - intros c c' Hc Hc'.
    apply in_course_block in Hc as (page & schedule & doc & Hp & _ & _ & _ & ->).
    apply in_course_block in Hc' as (page' & schedule' & doc' & Hp' & _ & _ & _ & ->).
    cbn [title]. congruence.
Qed.

Lemma records_carry_witness :
  (forall c,
      In c [mkCourse "225" [mkSection "10752" "A" "01"] "CSC" "CSC 225" "202009";
            mkCourse "225" [mkSection "20752" "A" "01"] "CSC" "CSC 225" "202101"] ->
      subject c = "CSC" /\ code c = "225")
  /\ (forall c c',
         In c [mkCourse "225" [mkSection "10752" "A" "01"] "CSC" "CSC 225" "202009";
               mkCourse "225" [mkSection "20752" "A" "01"] "CSC" "CSC 225" "202101"] ->
         In c' [mkCourse "225" [mkSection "10752" "A" "01"] "CSC" "CSC 225" "202009";
                mkCourse "225" [mkSection "20752" "A" "01"] "CSC" "CSC 225" "202101"] ->
         title c = title c').
Proof.
  apply (records_carry_subject_and_code two_schedules "CSC" "225").
  vm_compute. reflexivity.
Defined.

(** ** No dash in a field *)

Lemma split_segments c (s : string) :
  Forall (fun seg => Str.contains c seg = false) (Js.split c s).
Proof.
  induction s as [|x s IH]; [repeat constructor |].
  simpl. destruct (Ascii.eqb x c) eqn:E; [now constructor |].
  destruct (Js.split c s) as [|seg rest]; [repeat constructor; simpl; now rewrite E |].
  inversion IH; subst. constructor; [|assumption]. simpl. now rewrite E.
Qed.

Lemma substring_without c (n m : nat) (s : string) :
  Str.contains c s = false -> Str.contains c (substring n m s) = false.
Proof.
  revert n m. induction s as [|x s IH]; intros n m H.
  - now destruct n, m.
  - simpl in H. apply orb_false_iff in H as [Hx Hs].
    destruct n as [|n]; [|simpl; now apply IH].
    destruct m as [|m]; [reflexivity |].
    simpl. rewrite Hx. now apply IH.
Qed.

Lemma trim_without c (s : string) :
  Str.contains c s = false -> Str.contains c (Js.trim s) = false.
Proof.
  intros H. unfold Js.trim.
  assert (Hstart : Str.contains c (Js.trimStart s) = false).
  { induction s as [|x s IH]; [reflexivity |].
    simpl. destruct (Js.is_space x); [|exact H].
    simpl in H. apply orb_false_iff in H as [_ Hs]. now apply IH. }
  clear H. induction (Js.trimStart s) as [|x t IH]; [reflexivity |].
  simpl in Hstart. apply orb_false_iff in Hstart as [Hx Ht].
  simpl. specialize (IH Ht). destruct (Js.trimEnd t).
  - destruct (Js.is_space x); [reflexivity |]. simpl. now rewrite Hx.
  - change (Str.contains c (String x (String a s0)))
      with (Ascii.eqb x c || Str.contains c (String a s0)).
    now rewrite Hx, IH.
Qed.

Lemma charAt_without c (i : nat) (s : string) :
  Str.contains c s = false -> Str.contains c (Js.charAt i s) = false.
Proof.
  unfold Js.charAt. revert i. induction s as [|x s IH]; intros i H.
  - now destruct i.
  - simpl in H. apply orb_false_iff in H as [Hx Hs].
    destruct i as [|i]; simpl; [now rewrite Hx | now apply IH].
Qed.

(** X15.  No field of a Section that [getSections] gives holds a dash: the
    fields are cut from segments of the link text split at its dashes. *)
Theorem section_fields_hold_no_dash
    (web : Web) (params : string) (secs : list Section_) (sec : Section_) :
  value (getSections web params) = Ok secs -> In sec secs ->
  Str.contains "-" (crn sec) = false
  /\ Str.contains "-" (sectionType sec) = false
  /\ Str.contains "-" (sectionNumber sec) = false.
Proof.
  intros H Hsec. unfold value in H. rewrite getSections_run in H. cbn [fst] in H.
  destruct (web (SECTIONS_URL +:+ params)) as [page|]; [|discriminate].
  injection H as <-. unfold sections_in in Hsec.
  apply in_flat_map in Hsec as (element & _ & Hsec).
  unfold records, section_of in Hsec.
  destruct (Js.truthy (text [element]) && Re.test section_re (text [element]));
    [|destruct Hsec].
  pose proof (split_segments "-" (text [element])) as Hsegs.
  destruct (Js.split "-" (text [element]) !! 1%nat) as [a1|] eqn:E1;
    [|destruct Hsec].
  destruct (Js.split "-" (text [element]) !! 3%nat) as [a3|] eqn:E3; [|destruct Hsec].
  destruct Hsec as [<-|[]]. cbn [crn sectionType sectionNumber].
  rewrite Forall_forall in Hsegs.
  apply list_elem_of_lookup_2 in E1, E3.
  apply Hsegs in E1, E3.
  split; [now apply trim_without |].
  split; [now apply charAt_without |].
  unfold Js.slice. now apply substring_without.
Qed.

Lemma section_fields_witness :
  Str.contains "-" (crn (mkSection "Directed Study" "C" "SC")) = false
  /\ Str.contains "-" (sectionType (mkSection "Directed Study" "C" "SC")) = false
  /\ Str.contains "-" (sectionNumber (mkSection "Directed Study" "C" "SC")) = false.
Proof.
  apply (section_fields_hold_no_dash hyphenated_title "?term_in=202009"
           [mkSection "Directed Study" "C" "SC"; mkSection "" "" ""]).
  - vm_compute. reflexivity.
  - left. reflexivity.
Defined.

(** * Isolation, terms and order *)

(** ** C1: one department fails *)

Lemma forallb_ext_in {A} (f g : A -> bool) (l : list A) :
  (forall x, In x l -> f x = g x) -> forallb f l = forallb g l.
Proof.
  induction l as [|a l IH]; intros H; [reflexivity |].
  simpl. rewrite (H a (or_introl eq_refl)), IH; [reflexivity |].
  intros x Hx. apply H. now right.
Qed.

Lemma flat_map_ext_in {A B} (f g : A -> list B) (l : list A) :
  (forall x, In x l -> f x = g x) -> List.flat_map f l = List.flat_map g l.
Proof.
  induction l as [|a l IH]; intros H; [reflexivity |].
  simpl. rewrite (H a (or_introl eq_refl)), IH; [reflexivity |].
  intros x Hx. apply H. now right.
Qed.

(** The same pages give the same outcome. *)
Lemma same_pages_outcome web web' department :
  same_pages web web' department ->
  department_ok web' department = department_ok web department
  /\ department_block web' department = department_block web department.
Proof.
  intros [Hlisting Hbelow]. unfold department_ok, department_block.
  rewrite Hlisting.
  destruct (web (BASE_URL +:+ department)) as [listing|] eqn:E; [|split; reflexivity].
  split.
  - apply forallb_ext_in. intros code Hcode.
    destruct (Hbelow listing code eq_refl Hcode) as [Hpage Hsections].
    unfold course_ok. rewrite Hpage.
    destruct (web (course_url department code)) as [page|]; [|reflexivity].
    apply forallb_ext_in. intros schedule Hs. unfold fetched.
    now rewrite (Hsections page schedule eq_refl Hs).
  - apply flat_map_ext_in. intros code Hcode.
    destruct (Hbelow listing code eq_refl Hcode) as [Hpage Hsections].
    unfold course_block. rewrite Hpage.
    destruct (web (course_url department code)) as [page|]; [|reflexivity].
    apply flat_map_ext_in. intros schedule Hs. unfold schedule_records.
    now rewrite (Hsections page schedule eq_refl Hs).
Qed.

Lemma others_unchanged web web' department departments :
  department_ok web department = false ->
  (forall d, In d departments -> d <> department -> same_pages web web' d) ->
  List.filter (other_course department)
    (List.flat_map (department_block web') (succeeded web' departments))
  = List.flat_map (department_block web) (succeeded web departments)
  /\ List.filter (other_department department) (failing web' departments)
     = List.filter (other_department department) (failing web departments).
Proof.
  intros Hfail. unfold succeeded, failing.
  induction departments as [|d l IH]; intros Hsame; [split; reflexivity |].
  destruct IH as [IHr IHf]; [intros x Hx; apply Hsame; now right |].
  cbn [List.filter]. destruct (string_dec d department) as [->|Hne].
  - rewrite Hfail. cbn [negb]. cbn [List.filter].
    rewrite other_department_own. split.
    + destruct (department_ok web' department); [|exact IHr].
      cbn [List.flat_map]. rewrite List.filter_app, filter_other_own. exact IHr.
    + destruct (department_ok web' department); cbn [negb]; [exact IHf |].
      cbn [List.filter]. rewrite other_department_own. exact IHf.
  - destruct (same_pages_outcome web web' d (Hsame d (or_introl eq_refl) Hne))
      as [-> Hblock].
    destruct (department_ok web d); cbn [negb]; split; auto.
    + cbn [List.flat_map].
      rewrite List.filter_app, (filter_other_same web' department d Hne), IHr.
      now rewrite Hblock.
    + cbn [List.filter]. rewrite (other_department_other _ _ Hne). now f_equal.
Qed.

(** C1.  When a step of the processing of a department fails (the fetch of
    its listing, of one of its course pages, or of the sections page of one
    of their schedules), and the catalog page lists the department once (the
    specification assumes a listing without duplicates), the crawl goes on to
    its end; the identifier of the department is in the Failure Set exactly
    once; no Course record of the Crawl Result is of that department; and in
    every run on the same catalog page in which the other listed departments
    are served the same pages, whatever happens to this one, the records of
    the other departments are the same, in the same order, and so are the
    other entries of the Failure Set. *)
Theorem C1_failure_isolation
    (web : Web) (order : string -> list nat) (page : document) (department : string) :
  web BASE_URL = Some page ->
  count_occ string_dec (each (select "a" page) department_of) department = 1%nat ->
  fails_within web department ->
  exists results failed,
    main web order = Ok (results, failed)
    /\ count_occ string_dec failed department = 1%nat
    /\ (forall c, In c results -> subject c <> department)
    /\ (forall web' order' results' failed',
          web' BASE_URL = Some page ->
          (forall d, In d (each (select "a" page) department_of) ->
             d <> department -> same_pages web web' d) ->
          main web' order' = Ok (results', failed') ->
          List.filter (other_course department) results' = results
          /\ List.filter (other_department department) failed'
             = List.filter (other_department department) failed).
Proof.
  intros Hpage Honce Hfail. apply fails_within_iff in Hfail.
  rewrite main_closed, Hpage. cbn zeta.
  set (departments := each (select "a" page) department_of) in *.
  exists (List.flat_map (department_block web) (succeeded web departments)),
    (failing web departments).
  split; [reflexivity |]. split; [|split].
  - rewrite <- Honce. apply count_occ_filter. now rewrite Hfail.
  - intros c Hc Heq. apply in_flat_map in Hc as (d & Hd & Hc).
    apply department_block_subject in Hc.
    apply filter_In in Hd as [_ Hd]. congruence.
  - intros web' order' results' failed' Hpage' Hsame Hmain.
    rewrite main_closed, Hpage' in Hmain. cbn zeta in Hmain.
    injection Hmain as <- <-.
    now apply others_unchanged.
Qed.

Lemma same_pages_csc : same_pages campus_without_math_sections campus "CSC".
Proof.
  split; [reflexivity |].
  intros listing code Hlisting Hcode.
  vm_compute in Hlisting. injection Hlisting as <-.
  vm_compute in Hcode. destruct Hcode as [<-|[<-|[]]].
  - split; [reflexivity |]. intros page schedule Hp Hs.
    vm_compute in Hp. injection Hp as <-.
    vm_compute in Hs. destruct Hs as [<-|[]]. reflexivity.
  - split; [reflexivity |]. intros page schedule Hp Hs.
    vm_compute in Hp. injection Hp as <-.
    vm_compute in Hs. destruct Hs as [<-|[<-|[]]]; reflexivity.
Qed.

Lemma same_pages_catalog_csc : same_pages catalog catalog_with_math "CSC".
Proof.
  split; [reflexivity |].
  intros listing code Hlisting Hcode.
  vm_compute in Hlisting. injection Hlisting as <-.
  vm_compute in Hcode. destruct Hcode as [<-|[]].
  split; [reflexivity |]. intros page schedule Hp Hs.
  vm_compute in Hp. injection Hp as <-.
  vm_compute in Hs. destruct Hs as [<-|[]]. reflexivity.
Qed.

Lemma C1_witness :
  (exists results failed,
      main catalog in_order = Ok (results, failed)
      /\ count_occ string_dec failed "MATH" = 1%nat
      /\ (forall results' failed',
            main catalog_with_math reversed = Ok (results', failed') ->
            List.filter (other_course "MATH") results' = results
            /\ List.filter (other_department "MATH") failed'
               = List.filter (other_department "MATH") failed))
  /\ (exists results failed,
         main campus_without_math_sections reversed = Ok (results, failed)
         /\ count_occ string_dec failed "MATH" = 1%nat
         /\ (forall c, In c results -> subject c <> "MATH")
         /\ List.filter (other_course "MATH")
              [csc110; csc225_september; csc225_january; math100] = results
         /\ List.filter (other_department "MATH") [] 
            = List.filter (other_department "MATH") failed).
Proof.
  split.
  - destruct (C1_failure_isolation catalog in_order
                [Elem "html" []
                   [link "?C=N;O=D" "Name"; link "/calendar2020-01/" "Parent Directory";
                    link "CSC/" "CSC/"; link "MATH/" "MATH/"]] "MATH")
      as (results & failed & Hmain & Honce & _ & Hother).
    + reflexivity.
    + vm_compute. reflexivity.
    + left. reflexivity.
    + exists results, failed. split; [exact Hmain |]. split; [exact Honce |].
      intros results' failed'.
      apply (Hother catalog_with_math reversed results' failed'); [reflexivity |].
      intros d Hd Hne. vm_compute in Hd. destruct Hd as [<-|[<-|[]]];
        [exact same_pages_catalog_csc | congruence].
  - destruct (C1_failure_isolation campus_without_math_sections reversed
                [link "?C=N;O=D" "Name"; link "CSC/" "CSC/"; link "MATH/" "MATH/"] "MATH")
      as (results & failed & Hmain & Honce & Hnone & Hother).
    + reflexivity.
    + vm_compute. reflexivity.
    + right. exists [link "100.html" "100.html"], "100".
      split; [reflexivity |]. split; [left; reflexivity |]. right.
      exists [Elem "h2" [] [Text "MATH 100"];
              Elem "ul" [("id", "schedules")]
                [link "x?term_in=202009&subj_in=MATH&crse_in=100" "September 2020"]],
        "?term_in=202009&subj_in=MATH&crse_in=100".
      split; [reflexivity |]. split; [left; reflexivity | reflexivity].
    + exists results, failed. split; [exact Hmain |]. split; [exact Honce |].
      split; [exact Hnone |].
      apply (Hother campus in_order [csc110; csc225_september; csc225_january; math100] []);
        [reflexivity | | vm_compute; reflexivity].
      intros d Hd Hne. vm_compute in Hd. destruct Hd as [<-|[<-|[]]];
        [exact same_pages_csc | congruence].
Defined.

(** ** C9: the term of a record *)

(** C9, as stated, fails: the pattern looks for the text [term_in=] and not
    for a parameter of that name.  A schedule whose parameter [term_in] is
    [202009] gets the term of an earlier parameter whose name ends with
    [term_in]; a schedule with no parameter [term_in] gets that term too,
    not ["0"]. *)
Lemma C9_counterexample :
  value (getOffered other_parameter "CSC" "225")
  = Ok [mkCourse "225" [mkSection "10752" "A" "01"] "CSC" "CSC 225" "201909";
        mkCourse "225" [mkSection "10753" "A" "02"] "CSC" "CSC 225" "201909"]
  /\ parameter "term_in" "?start_term_in=201909&term_in=202009" = Some "202009"
  /\ parameter "term_in" "?start_term_in=201909" = None
  /\ "201909" <> "202009" /\ "201909" <> "0".
Proof. repeat split; try (vm_compute; reflexivity); discriminate. Qed.

Lemma all_fetched_iff web schedules :
  all_fetched web schedules = true
  <-> forall s, In s schedules -> web (SECTIONS_URL +:+ s) <> None.
Proof.
  unfold all_fetched. rewrite forallb_forall. unfold fetched.
  split; intros H s Hs; specialize (H s Hs);
    destruct (web (SECTIONS_URL +:+ s)); congruence.
Qed.

(** C9, amended.  When the page of a course and the sections pages of all
    its schedules are fetched, [getOffered] returns, and for every schedule
    of the page that has at least one section it returns a Course record of
    that schedule; the term of every record it returns is read from the
    query string of a schedule of the page as a piece of text: it is the run
    of digits that follows the first [term_in=] that a digit follows,
    whether or not that text is the whole name of a parameter, and it is
    ["0"] when no [term_in=] of the query string is followed by a digit; no
    error is raised in either case. *)
Theorem C9_term_of_a_schedule
    (web : Web) (subject code : string) (page : document)
    (schedule : string) (doc : document) :
  web (course_url subject code) = Some page ->
  (forall s, In s (schedules_of page) -> web (SECTIONS_URL +:+ s) <> None) ->
  In schedule (schedules_of page) ->
  web (SECTIONS_URL +:+ schedule) = Some doc ->
  sections_in doc <> [] ->
  exists courses t,
    value (getOffered web subject code) = Ok courses
    /\ In (mkCourse code (sections_in doc) subject (title_of page) t) courses
    /\ (forall pre digits post,
          schedule = pre +:+ "term_in=" +:+ digits +:+ post ->
          digits <> "" -> Str.all Js.is_digit digits = true ->
          Str.first_is Js.is_digit post = false ->
          (forall i, (i < String.length pre)%nat -> ~ param_at i schedule) ->
          t = digits)
    /\ ((forall i, ~ param_at i schedule) -> t = "0")
    /\ (forall c, In c courses ->
          exists s,
            In s (schedules_of page)
            /\ (forall pre digits post,
                  s = pre +:+ "term_in=" +:+ digits +:+ post ->
                  digits <> "" -> Str.all Js.is_digit digits = true ->
                  Str.first_is Js.is_digit post = false ->
                  (forall i, (i < String.length pre)%nat -> ~ param_at i s) ->
                  term c = digits)
            /\ ((forall i, ~ param_at i s) -> term c = "0")).
Proof.
  intros Hpage Hall Hs Hdoc Hsecs.
  exists (course_block web subject code), (term_of schedule).
  split; [|split; [|split; [|split]]].
  - rewrite value_getOffered. unfold course_ok. rewrite Hpage.
    apply all_fetched_iff in Hall. now rewrite Hall.
  - unfold course_block. rewrite Hpage. apply in_flat_map.
    exists schedule. split; [assumption |].
    unfold schedule_records. rewrite Hdoc.
    destruct (sections_in doc); [congruence | now left].
  - intros pre digits post -> Hne Hdigits Hpost Hfirst. now apply term_of_first.
  - apply term_of_none.
  - intros c Hc.
    apply in_course_block in Hc as (page' & s & doc' & Hp & Hin & _ & _ & ->).
    rewrite Hpage in Hp. injection Hp as <-.
    exists s. split; [assumption |]. cbn [term]. split.
    + intros pre digits post -> Hne Hdigits Hpost Hfirst. now apply term_of_first.
    + apply term_of_none.
Qed.

Lemma C9_witness :
  (exists courses,
      value (getOffered catalog "CSC" "225") = Ok courses
      /\ In (mkCourse "225" [mkSection "10752" "A" "01"; mkSection "10753" "B" "01"]
               "CSC" " CSC 225 - Algorithms and Data Structures I " "202009") courses)
  /\ (exists courses,
         value (getOffered without_term "CSC" "225") = Ok courses
         /\ In (mkCourse "225" [mkSection "10752" "A" "01"] "CSC" "CSC 225" "0") courses).
Proof.
  split.
  - destruct (C9_term_of_a_schedule catalog "CSC" "225"
                [Elem "h2" [] [Text " CSC 225 - Algorithms and Data Structures I "];
                 Elem "ul" [("id", "schedules")]
                   [Elem "li" []
                      [link "https://www.uvic.ca/BAN1P/bwckctlg.p_disp_listcrse?term_in=202009&subj_in=CSC&crse_in=225&schd_in="
                         "September 2020"]];
                 link "../index.html" "Back"]
                "?term_in=202009&subj_in=CSC&crse_in=225&schd_in="
                [link "s1" "Algorithms and Data Structures I - 10752 - CSC 225 - A01";
                 link "s2" "Algorithms and Data Structures I - 10753 - CSC 225 - B01";
                 link "help" "Help"])
      as (courses & t & Hvalue & Hin & Hfirst & _).
    + reflexivity.
    + intros s Hs. vm_compute in Hs. destruct Hs as [<-|[]]. discriminate.
    + left. reflexivity.
    + reflexivity.
    + discriminate.
    + exists courses. split; [exact Hvalue |].
      rewrite (Hfirst "?" "202009" "&subj_in=CSC&crse_in=225&schd_in=") in Hin;
        try reflexivity; try discriminate; [exact Hin |].
      intros i Hi [d [Hd _]].
      assert (i = 0%nat) as -> by (simpl in Hi; lia).
      vm_compute in Hd. discriminate Hd.
  - destruct (C9_term_of_a_schedule without_term "CSC" "225"
                [Elem "h2" [] [Text "CSC 225"];
                 Elem "ul" [("id", "schedules")] [link "x?subj_in=CSC" "Schedule"]]
                "?subj_in=CSC"
                [link "s1" "Algorithms and Data Structures I - 10752 - CSC 225 - A01"])
      as (courses & t & Hvalue & Hin & _ & Hnone & _).
    + reflexivity.
    + intros s Hs. vm_compute in Hs. destruct Hs as [<-|[]]. discriminate.
    + left. reflexivity.
    + reflexivity.
    + discriminate.
    + exists courses. split; [exact Hvalue |].
      rewrite Hnone in Hin; [exact Hin |].
      intros i [d [Hd _]].
      do 13 (destruct i as [|i]; [vm_compute in Hd; discriminate Hd |]).
      vm_compute in Hd. discriminate Hd.
Defined.

(** ** C3: the order of the Crawl Result *)

Section Picked.
Context {A B : Type} (keep : A -> bool) (f : A -> B).

Lemma picked_values n (l : list A) :
  List.map snd (picked_from keep f n l) = List.map f (List.filter keep l).
Proof.
  revert n. induction l as [|x l IH]; intros n; [reflexivity |].
  cbn [picked_from List.filter]. rewrite List.map_app, IH.
  now destruct (keep x).
Qed.

Lemma picked_in n (l : list A) i b :
  In (i, b) (picked_from keep f n l) ->
  (n <= i)%nat /\ exists x, l !! (i - n)%nat = Some x /\ keep x = true /\ b = f x.
Proof.
  revert n. induction l as [|x l IH]; intros n H; [destruct H |].
  cbn [picked_from] in H. apply in_app_iff in H as [H|H].
  - destruct (keep x) eqn:E; [|destruct H]. destruct H as [[= <- <-]|[]].
    split; [lia |]. exists x. rewrite Nat.sub_diag. auto.
  - apply IH in H as [Hle (y & Hy & Hk & ->)].
    split; [lia |]. exists y. repeat split; auto.
    replace (i - n)%nat with (S (i - S n)) by lia. exact Hy.
Qed.

Lemma picked_sorted n (l : list A) :
  StronglySorted (fun p q => (p.1 < q.1)%nat) (picked_from keep f n l).
Proof.
  revert n. induction l as [|x l IH]; intros n; [constructor |].
  cbn [picked_from]. destruct (keep x); [|apply IH].
  cbn [app]. constructor; [apply IH |].
  apply Forall_forall. intros [i b] Hin. apply list_elem_of_In in Hin.
  apply picked_in in Hin as [Hle _]. cbn. lia.
Qed.

End Picked.

Lemma sorted_app {A} (R : A -> A -> Prop) (l1 l2 : list A) :
  StronglySorted R l1 -> StronglySorted R l2 ->
  (forall x y, In x l1 -> In y l2 -> R x y) ->
  StronglySorted R (l1 ++ l2).
Proof.
  induction l1 as [|a l1 IH]; intros H1 H2 H; [exact H2 |].
  inversion H1 as [|? ? Hs Hf]; subst. cbn [app]. constructor.
  - apply IH; auto. intros x y Hx Hy. apply H; [now right | assumption].
  - apply Forall_app. split; [assumption |].
    apply Forall_forall. intros y Hy. apply list_elem_of_In in Hy.
    apply H; [now left | assumption].
Qed.

Lemma sorted_flat_map {A B} (RA : A -> A -> Prop) (RB : B -> B -> Prop)
    (f : A -> list B) (l : list A) :
  StronglySorted RA l ->
  (forall a, In a l -> StronglySorted RB (f a)) ->
  (forall a a' b b', RA a a' -> In b (f a) -> In b' (f a') -> RB b b') ->
  StronglySorted RB (List.flat_map f l).
Proof.
  intros Hl Hf Hcross. induction Hl as [|a l Hs IH Hall]; [constructor |].
  cbn [List.flat_map]. apply sorted_app.
  - apply Hf. now left.
  - apply IH. intros a' Ha'. apply Hf. now right.
  - intros b b' Hb Hb'. apply in_flat_map in Hb' as (a' & Ha' & Hb').
    rewrite Forall_forall in Hall.
    apply (Hcross a a'); auto. apply Hall. now apply list_elem_of_In.
Qed.

Lemma map_snd_flat_map {K A B} (g : A -> list (K * B)) (h : A -> list B) (l : list A) :
  (forall a, In a l -> List.map snd (g a) = h a) ->
  List.map snd (List.flat_map g l) = List.flat_map h l.
Proof.
  induction l as [|a l IH]; intros H; [reflexivity |].
  cbn [List.flat_map]. rewrite List.map_app, (H a (or_introl eq_refl)), IH;
    [reflexivity |]. intros x Hx. apply H. now right.
Qed.

Lemma flat_map_over_map {A B C} (h : B -> list C) (f : A -> B) (l : list A) :
  List.flat_map h (List.map f l) = List.flat_map (fun a => h (f a)) l.
Proof.
  induction l as [|a l IH]; [reflexivity |]. cbn. now rewrite IH.
Qed.

Lemma codes_at_values listing : List.map snd (codes_at listing) = codes_of listing.
Proof. unfold codes_at, picked. now rewrite picked_values, codes_closed. Qed.

Lemma departments_at_values page :
  List.map snd (departments_at page) = each (select "a" page) department_of.
Proof. unfold departments_at, picked. now rewrite picked_values, departments_closed. Qed.

Lemma schedules_at_values page : List.map snd (schedules_at page) = schedules_of page.
Proof.
  unfold schedules_at, picked, schedules_of, region_targets.
  rewrite picked_values, each_flat_map.
  induction (find_by_id "schedules" "a" page) as [|element l IH]; [reflexivity |].
  cbn [List.flat_map omap list_omap]. unfold schedule_of at 1.
  destruct (attr "href" element) as [t|]; [|exact IH].
  cbn [List.filter]. destruct (Js.truthy t); [|exact IH].
  cbn [List.map app]. now rewrite IH, slice_query.
Qed.

Lemma course_discoveries_records web i department at_code :
  List.map snd (course_discoveries web i department at_code)
  = course_block web department at_code.2.
Proof.
  unfold course_discoveries, course_block.
  destruct (web (course_url department at_code.2)) as [page|]; [|reflexivity].
  rewrite <- schedules_at_values, flat_map_over_map.
  apply map_snd_flat_map. intros at_schedule _.
  rewrite List.map_map. apply List.map_id.
Qed.

Lemma department_discoveries_records web at_department :
  List.map snd (department_discoveries web at_department)
  = if department_ok web at_department.2
    then department_block web at_department.2 else [].
Proof.
  unfold department_discoveries, department_block.
  destruct (department_ok web at_department.2); [|reflexivity].
  destruct (web (BASE_URL +:+ at_department.2)) as [listing|]; [|reflexivity].
  rewrite <- codes_at_values, flat_map_over_map.
  apply map_snd_flat_map. intros at_code _. apply course_discoveries_records.
Qed.

Lemma discovered_records web page :
  List.map snd (discovered web page)
  = List.flat_map (department_block web)
      (succeeded web (each (select "a" page) department_of)).
Proof.
  unfold discovered. rewrite <- departments_at_values.
  rewrite (map_snd_flat_map _
             (fun p => if department_ok web p.2 then department_block web p.2 else []))
    by (intros p _; apply department_discoveries_records).
  unfold succeeded.
  induction (departments_at page) as [|p l IH]; [reflexivity |].
  cbn [List.flat_map List.map List.filter]. rewrite IH.
  now destruct (department_ok web p.2).
Qed.

Lemma in_course_discoveries web i department at_code place c :
  In (place, c) (course_discoveries web i department at_code) ->
  exists page k schedule,
    place = (i, at_code.1, k)
    /\ web (course_url department at_code.2) = Some page
    /\ In (k, schedule) (schedules_at page)
    /\ In c (schedule_records web department at_code.2 (title_of page) schedule).
Proof.
  unfold course_discoveries.
  destruct (web (course_url department at_code.2)) as [page|]; [|intros []].
  intros H. apply in_flat_map in H as ([k schedule] & Hk & H).
  apply in_map_iff in H as (c' & [= <- <-] & Hc).
  exists page, k, schedule. auto.
Qed.

Lemma in_department_discoveries web at_department place c :
  In (place, c) (department_discoveries web at_department) ->
  exists listing j code page k schedule,
    place = (at_department.1, j, k)
    /\ department_ok web at_department.2 = true
    /\ web (BASE_URL +:+ at_department.2) = Some listing
    /\ In (j, code) (codes_at listing)
    /\ web (course_url at_department.2 code) = Some page
    /\ In (k, schedule) (schedules_at page)
    /\ In c (schedule_records web at_department.2 code (title_of page) schedule).
Proof.
  unfold department_discoveries.
  destruct (department_ok web at_department.2); [|intros []].
  destruct (web (BASE_URL +:+ at_department.2)) as [listing|]; [|intros []].
  intros H. apply in_flat_map in H as ([j code] & Hj & H).
  apply in_course_discoveries in H as (page & k & schedule & -> & Hp & Hk & Hc).
  exists listing, j, code, page, k, schedule. repeat split; assumption || reflexivity.
Qed.

Lemma course_discoveries_sorted web i department at_code :
  StronglySorted (fun p q => earlier p.1 q.1)
    (course_discoveries web i department at_code).
Proof.
  unfold course_discoveries.
  destruct (web (course_url department at_code.2)) as [page|]; [|constructor].
  apply (sorted_flat_map (fun p q => (p.1 < q.1)%nat)).
  - apply picked_sorted.
  - intros at_schedule _.
    pose proof (length_schedule_records web department at_code.2 (title_of page)
                  at_schedule.2) as Hlen.
    destruct (schedule_records web department at_code.2 (title_of page) at_schedule.2)
      as [|c [|c' l]]; cbn in *; [constructor | repeat constructor | lia].
  - intros a a' b b' Hlt Hb Hb'.
    apply in_map_iff in Hb as (c & <- & _).
    apply in_map_iff in Hb' as (c' & <- & _).
    right. split; [reflexivity |]. right. split; [reflexivity | exact Hlt].
Qed.

Lemma department_discoveries_sorted web at_department :
  StronglySorted (fun p q => earlier p.1 q.1)
    (department_discoveries web at_department).
Proof.
  unfold department_discoveries.
  destruct (department_ok web at_department.2); [|constructor].
  destruct (web (BASE_URL +:+ at_department.2)) as [listing|]; [|constructor].
  apply (sorted_flat_map (fun p q => (p.1 < q.1)%nat)).
  - apply picked_sorted.
  - intros at_code _. apply course_discoveries_sorted.
  - intros a a' [pl c] [pl' c'] Hlt Hb Hb'.
    apply in_course_discoveries in Hb as (_ & k & _ & -> & _).
    apply in_course_discoveries in Hb' as (_ & k' & _ & -> & _).
    right. split; [reflexivity |]. left. exact Hlt.
Qed.

Lemma discovered_sorted web page :
  StronglySorted (fun p q => earlier p.1 q.1) (discovered web page).
Proof.
  unfold discovered.
  apply (sorted_flat_map (fun p q => (p.1 < q.1)%nat)).
  - apply picked_sorted.
  - intros at_department _. apply department_discoveries_sorted.
  - intros a a' [pl c] [pl' c'] Hlt Hb Hb'.
    apply in_department_discoveries in Hb as (_ & j & _ & _ & k & _ & -> & _).
    apply in_department_discoveries in Hb' as (_ & j' & _ & _ & k' & _ & -> & _).
    left. exact Hlt.
Qed.

(** C3.  The Crawl Result of a run that reaches its end is the sequence of
    the records discovered from the catalog page.  Each record has a place:
    the position, among the hyperlink targets of the catalog page in
    document order, of the target of its department; the position, among the
    targets of the listing of the department, of the target of its course;
    and the position, among the targets of the [schedules] region of the
    course page, of the target of its schedule.  Along the Crawl Result the
    places strictly increase, by department, then by course, then by
    schedule; and the order in which the concurrent course fetches of a
    department complete changes nothing. *)
Theorem C3_result_in_discovery_order
    (web : Web) (order : string -> list nat)
    (results : list Course) (failed : list string) :
  main web order = Ok (results, failed) ->
  exists page,
    web BASE_URL = Some page
    /\ results = List.map snd (discovered web page)
    /\ StronglySorted (fun p q => earlier p.1 q.1) (discovered web page)
    /\ (forall i j k c,
          In ((i, j, k), c) (discovered web page) ->
          exists t listing u course_page v doc,
            targets page !! i = Some t
            /\ Str.first_is Js.is_upper t = true
            /\ subject c = Str.drop_last t
            /\ web (BASE_URL +:+ subject c) = Some listing
            /\ targets listing !! j = Some u
            /\ Str.first_is Js.is_octal u = true
            /\ code c = course_code u
            /\ web (course_url (subject c) (code c)) = Some course_page
            /\ region_targets course_page !! k = Some v
            /\ Js.truthy v = true
            /\ web (SECTIONS_URL +:+ query_part v) = Some doc
            /\ sections c = sections_in doc)
    /\ (forall order', main web order' = Ok (results, failed)).
Proof.
  intros H. pose proof H as Hmain. apply main_ok in H as (page & Hpage & -> & ->).
  exists page. split; [assumption |].
  split; [symmetry; apply discovered_records |].
  split; [apply discovered_sorted |]. split.
  - intros i j k c Hin. unfold discovered in Hin.
    apply in_flat_map in Hin as ([i' department] & Hd & Hin).
    apply in_department_discoveries in Hin
      as (listing & j' & code0 & course_page & k' & schedule
          & [= <- <- <-] & _ & Hlisting & Hj & Hcp & Hk & Hc).
    cbn [fst snd] in *.
    apply picked_in in Hd as [_ (t & Ht & Hkeep & ->)].
    apply picked_in in Hj as [_ (u & Hu & Hkeepu & ->)].
    apply picked_in in Hk as [_ (v & Hv & Hkeepv & ->)].
    apply in_schedule_records in Hc as (doc & Hdoc & _ & ->).
    rewrite Nat.sub_0_r in *. cbn [subject code sections].
    exists t, listing, u, course_page, v, doc. repeat split; assumption.
  - intros order'. rewrite main_closed in *. exact Hmain.
Qed.

Lemma C3_witness :
  exists page,
    campus BASE_URL = Some page
    /\ [csc110; csc225_september; csc225_january; math100]
       = List.map snd (discovered campus page)
    /\ discovered campus page
       = [((1, 0, 0)%nat, csc110); ((1, 1, 0)%nat, csc225_september);
          ((1, 1, 1)%nat, csc225_january); ((2, 0, 0)%nat, math100)]
    /\ main campus campus_order
       = Ok ([csc110; csc225_september; csc225_january; math100], [])
    /\ main campus in_order
       = Ok ([csc110; csc225_september; csc225_january; math100], []).
Proof.
  destruct (C3_result_in_discovery_order campus campus_order
              [csc110; csc225_september; csc225_january; math100] [])
    as (page & Hpage & Hresults & _ & _ & Horder).
  - vm_compute. reflexivity.
  - exists page. split; [exact Hpage |]. split; [exact Hresults |].
    split; [|split; apply Horder].
    vm_compute in Hpage. injection Hpage as <-. vm_compute. reflexivity.
Defined.
